(** * processor-ai: the request / response normalisation pipeline

    A shallow embedding of
    - [api/gemini.ts]: the gateway [handler] (method dispatch, body
      validation, construction of the upstream [contents], classification of
      the upstream outcome), and
    - [src/services/geminiService.ts]: [GeminiService] ([requestBackend] and
      the seven [analyze*] operations),
    - [src/App.tsx]: the state of the component and its handlers
      [handleFileUpload] and [handleProcess], which call the service,
    together with the ECMAScript operations these two files rely on
    (truthiness, property reads, [ToString], [String.prototype.split],
    [includes], [replace], [trim], [substring] and [JSON.parse]).

    The calls to [console.log] and [console.error] write to the console and
    nothing else; they are left out, and with them [isVercel], which only
    selects what is logged. *)

From Stdlib Require Import List String Ascii NArith ZArith Bool.
Import ListNotations.

(** ** ECMAScript strings

    A JavaScript string is a sequence of UTF-16 code units; [substring],
    [split] and [includes] count and compare code units.  String literals of
    the TypeScript sources are written [js "..."]: the UTF-8 bytes of the
    literal are decoded and re-encoded as UTF-16, which is what the compiler
    does with them. *)

Module JsString.

Definition jsstring := list N.

Fixpoint bytes_of_string (s : string) : list N :=
  match s with
  | EmptyString => []
  | String c r => N_of_ascii c :: bytes_of_string r
  end.

(** UTF-8 decoding: code points of a well-formed byte sequence (a truncated
    trailing sequence is dropped; the literals below are all well formed). *)
Fixpoint code_points (bs : list N) : list N :=
  match bs with
  | [] => []
  | b0 :: r0 =>
      if (b0 <? 128)%N then b0 :: code_points r0
      else
        match r0 with
        | [] => []
        | b1 :: r1 =>
            if (b0 <? 224)%N then
              ((b0 mod 32) * 64 + b1 mod 64)%N :: code_points r1
            else
              match r1 with
              | [] => []
              | b2 :: r2 =>
                  if (b0 <? 240)%N then
                    ((b0 mod 16) * 4096 + (b1 mod 64) * 64 + b2 mod 64)%N
                      :: code_points r2
                  else
                    match r2 with
                    | [] => []
                    | b3 :: r3 =>
                        ((b0 mod 8) * 262144 + (b1 mod 64) * 4096
                         + (b2 mod 64) * 64 + b3 mod 64)%N :: code_points r3
                    end
              end
        end
  end.

(** UTF-16 encoding of one code point. *)
Definition code_units (cp : N) : list N :=
  if (cp <? 65536)%N then [cp]
  else [(55296 + (cp - 65536) / 1024)%N; (56320 + (cp - 65536) mod 1024)%N].

Definition js (s : string) : jsstring :=
  flat_map code_units (code_points (bytes_of_string s)).

(** [jsq "..."] is [js "..."] with every apostrophe read as a quotation
    mark (U+0022), for literals of JSON text. *)
Definition jsq (s : string) : jsstring :=
  map (fun c => if (c =? 39)%N then 34%N else c) (js s).

Definition eqb (a b : jsstring) : bool :=
  if list_eq_dec N.eq_dec a b then true else false.

(** Code units the sources name explicitly. *)
Definition cu_comma : N := 44.      (* ',' *)
Definition cu_lbrace : N := 123.    (* '{' *)
Definition cu_backtick : N := 96.   (* '`' *)

(** Decimal rendering of an integer, as [String(n)] gives it for the
    integers that occur as HTTP status codes and array lengths. *)
Fixpoint digits_of_pos (fuel : nat) (n : N) (acc : jsstring) : jsstring :=
  match fuel with
  | O => acc
  | S f =>
      let acc' := (48 + n mod 10)%N :: acc in
      if (n / 10 =? 0)%N then acc' else digits_of_pos f (n / 10)%N acc'
  end.

Definition decimal_of_N (n : N) : jsstring :=
  digits_of_pos (S (N.to_nat (N.log2 n))) n [].

Definition decimal_of_Z (z : Z) : jsstring :=
  match z with
  | Z0 => [48%N]
  | Zpos p => decimal_of_N (Npos p)
  | Zneg p => 45%N :: decimal_of_N (Npos p)
  end.

End JsString.
Import JsString.


(** ** ECMAScript values

    The values that flow through the two files are JSON values (request
    bodies, response bodies, the result of [JSON.parse]) and [undefined].
    TypeScript's types are erased at run time, so every field that is read
    from such a value is modelled as a [JSValue], whatever its declared
    type.

    A number is kept as the literal it was written as.  Its reading as an
    IEEE binary64 value is not modelled: the two observations the sources
    make of a number ([ToBoolean] in [||], [&&] and [!], [ToString] in a
    template literal) are taken from the [Engine] below. *)

#[warnings="-register-all"] Inductive JSValue : Type :=
| JUndefined
| JNull
| JBool (b : bool)
| JNumber (literal : jsstring)
| JString (s : jsstring)
| JArray (items : list JSValue)
| JObject (fields : list (jsstring * JSValue)).

(** An [Error] object, as thrown by the runtime or by a rejected promise. *)
Record JSError : Type := mkError {
  error_name : jsstring;
  error_message : jsstring
}.

(** Completion of an evaluation: a value, or an exception. *)
Inductive Outcome (A : Type) : Type :=
| Return (a : A)
| Throw (e : JSError).
Arguments Return {A} a.
Arguments Throw {A} e.

Definition bindO {A B : Type} (c : Outcome A) (k : A -> Outcome B) : Outcome B :=
  match c with
  | Return a => k a
  | Throw e => Throw e
  end.

(** [try { c } catch (e) { h e }] *)
Definition try_catch {A : Type} (c : Outcome A) (h : JSError -> Outcome A) : Outcome A :=
  match c with
  | Return a => Return a
  | Throw e => h e
  end.

Declare Scope js_scope.
Delimit Scope js_scope with js.
Notation "x <-- c ;; k" := (bindO c (fun x => k))
  (at level 61, c at next level, right associativity) : js_scope.
Open Scope js_scope.

(** Where the runtime raises a [TypeError]; the wording of the message is
    the engine's. *)
Inductive TypeErrorSite : Type :=
| ReadOfNullish (base : JSValue) (prop : jsstring)
| NotAFunction (callee : jsstring)
| NoPrimitiveValue.

Record Engine : Type := mkEngine {
  (** [ToBoolean] of a number literal is [false]: it reads as [0] or [-0] *)
  number_is_falsy : jsstring -> bool;
  (** [Number::toString] of a number literal *)
  number_to_string : jsstring -> jsstring;
  type_error_message : TypeErrorSite -> jsstring;
  (** message of the [SyntaxError] that [JSON.parse] throws on a text *)
  syntax_error_message : jsstring -> jsstring
}.

Section Values.

Variable engine : Engine.

Definition TypeError (site : TypeErrorSite) : JSError :=
  mkError (js "TypeError") (type_error_message engine site).

Definition SyntaxError (text : jsstring) : JSError :=
  mkError (js "SyntaxError") (syntax_error_message engine text).

(** [ToBoolean] *)
Definition truthy (v : JSValue) : bool :=
  match v with
  | JUndefined | JNull => false
  | JBool b => b
  | JNumber n => negb (number_is_falsy engine n)
  | JString [] => false
  | JString (_ :: _) => true
  | JArray _ | JObject _ => true
  end.

(** [v === undefined || v === null] *)
Definition nullish (v : JSValue) : bool :=
  match v with
  | JUndefined | JNull => true
  | _ => false
  end.

(** [v === "literal"] *)
Definition strict_eq_string (v : JSValue) (s : jsstring) : bool :=
  match v with
  | JString t => JsString.eqb t s
  | _ => false
  end.

Fixpoint own_property (key : jsstring) (fields : list (jsstring * JSValue)) : option JSValue :=
  match fields with
  | [] => None
  | (k, v) :: rest => if JsString.eqb k key then Some v else own_property key rest
  end.

(** [CreateDataProperty]: an existing key keeps its place and takes the new
    value, a new key goes last. *)
Fixpoint obj_set (key : jsstring) (v : JSValue) (fields : list (jsstring * JSValue))
  : list (jsstring * JSValue) :=
  match fields with
  | [] => [(key, v)]
  | (k, w) :: rest =>
      if JsString.eqb k key then (k, v) :: rest else (k, w) :: obj_set key v rest
  end.

Definition is_digit (c : N) : bool := ((48 <=? c) && (c <=? 57))%N.

Fixpoint N_of_digits (acc : N) (s : jsstring) : option N :=
  match s with
  | [] => Some acc
  | c :: r => if is_digit c then N_of_digits (acc * 10 + (c - 48))%N r else None
  end.

(** A property key that is a canonical array index: the digit 0 alone, or
    digits with no leading zero. *)
Definition array_index (key : jsstring) : option nat :=
  match key with
  | [] => None
  | c :: r =>
      if ((c =? 48)%N && negb (match r with [] => true | _ => false end))%bool then None
      else option_map N.to_nat (N_of_digits 0 key)
  end.

(** [v[key]] and [v.key].  Own properties only: none of the names the two
    files read ([text], [image], [file], [base64], [mimeType], [error],
    [message], [candidates], [content], [parts], [summary], [keyPoints],
    [conclusion], [detailedAnalysis], and the index [0]) is defined on
    [Object.prototype], [Array.prototype], [String.prototype],
    [Number.prototype] or [Boolean.prototype]. *)
Definition get_prop (v : JSValue) (key : jsstring) : Outcome JSValue :=
  match v with
  | JUndefined | JNull => Throw (TypeError (ReadOfNullish v key))
  | JBool _ | JNumber _ => Return JUndefined
  | JString s =>
      match array_index key with
      | Some i =>
          match nth_error s i with
          | Some c => Return (JString [c])
          | None => Return JUndefined
          end
      | None =>
          if JsString.eqb key (js "length")
          then Return (JNumber (decimal_of_N (N.of_nat (List.length s))))
          else Return JUndefined
      end
  | JArray items =>
      match array_index key with
      | Some i => Return (nth i items JUndefined)
      | None =>
          if JsString.eqb key (js "length")
          then Return (JNumber (decimal_of_N (N.of_nat (List.length items))))
          else Return JUndefined
      end
  | JObject fields =>
      match own_property key fields with
      | Some w => Return w
      | None => Return JUndefined
      end
  end.

(** [v?.key] *)
Definition get_opt (v : JSValue) (key : jsstring) : Outcome JSValue :=
  if nullish v then Return JUndefined else get_prop v key.

(** [a || b], [b] evaluated only when [a] is falsy. *)
Definition or_else (a : JSValue) (b : Outcome JSValue) : Outcome JSValue :=
  if truthy a then Return a else b.

(** [a && b], [b] evaluated only when [a] is truthy. *)
Definition and_then (a : JSValue) (b : Outcome JSValue) : Outcome JSValue :=
  if truthy a then b else Return a.

(** [ToString], as a template literal applies it.  An array prints its
    elements joined by commas, [null] and [undefined] elements as the empty
    string.  An object without an own [toString] prints as
    [[object Object]] through [Object.prototype.toString]; an own
    [toString] of a JSON object is not callable and the inherited [valueOf]
    returns the object itself, so [OrdinaryToPrimitive] throws. *)
Fixpoint ToString (v : JSValue) : Outcome jsstring :=
  match v with
  | JUndefined => Return (js "undefined")
  | JNull => Return (js "null")
  | JBool true => Return (js "true")
  | JBool false => Return (js "false")
  | JNumber n => Return (number_to_string engine n)
  | JString s => Return s
  | JArray items =>
      (fix join (xs : list JSValue) : Outcome jsstring :=
         match xs with
         | [] => Return []
         | x :: rest =>
             sx <-- (if nullish x then Return [] else ToString x) ;;
             match rest with
             | [] => Return sx
             | _ :: _ => sr <-- join rest ;; Return (sx ++ cu_comma :: sr)
             end
         end) items
  | JObject fields =>
      match own_property (js "toString") fields with
      | Some _ => Throw (TypeError NoPrimitiveValue)
      | None => Return (js "[object Object]")
      end
  end.

End Values.

(** ** String methods used by [geminiService.ts] *)

Module StringMethods.

(** [s.split(',')] *)
Fixpoint split_comma (s : jsstring) : list jsstring :=
  match s with
  | [] => [[]]
  | c :: r =>
      if (c =? cu_comma)%N then [] :: split_comma r
      else
        match split_comma r with
        | seg :: segs => (c :: seg) :: segs
        | [] => [[c]]
        end
  end.

(** [s.includes('{')] *)
Definition includes_lbrace (s : jsstring) : bool :=
  existsb (N.eqb cu_lbrace) s.

Fixpoint starts_with (p s : jsstring) : bool :=
  match p, s with
  | [], _ => true
  | _ :: _, [] => false
  | a :: p', b :: s' => (a =? b)%N && starts_with p' s'
  end.

(** [s.replace(/```json|```/g, '')]: a left-to-right scan; at each position
    the first alternative that matches is removed and the scan resumes
    behind it.  [skip] counts the code units of the current match that are
    still to be dropped. *)
Fixpoint replace_fences_from (skip : nat) (s : jsstring) : jsstring :=
  match s with
  | [] => []
  | c :: r =>
      match skip with
      | S k => replace_fences_from k r
      | O =>
          if starts_with (js "```json") s then replace_fences_from 6 r
          else if starts_with (js "```") s then replace_fences_from 2 r
          else c :: replace_fences_from 0 r
      end
  end.

Definition replace_fences (s : jsstring) : jsstring := replace_fences_from 0 s.

(** ECMAScript [WhiteSpace] and [LineTerminator] code points. *)
Definition is_js_whitespace (c : N) : bool :=
  ((c =? 9) || (c =? 10) || (c =? 11) || (c =? 12) || (c =? 13) || (c =? 32)
   || (c =? 160) || (c =? 5760) || ((8192 <=? c) && (c <=? 8202))
   || (c =? 8232) || (c =? 8233) || (c =? 8239) || (c =? 8287)
   || (c =? 12288) || (c =? 65279))%N.

Fixpoint trim_start (s : jsstring) : jsstring :=
  match s with
  | [] => []
  | c :: r => if is_js_whitespace c then trim_start r else s
  end.

(** [s.trim()] *)
Definition trim (s : jsstring) : jsstring :=
  rev (trim_start (rev (trim_start s))).

(** [s.substring(0, n)] *)
Definition substring0 (n : nat) (s : jsstring) : jsstring := firstn n s.

End StringMethods.
Import StringMethods.

(** ** [JSON.parse]

    The JSON grammar of ECMA-404, as [JSON.parse] accepts it, recognised by
    two automata that read the text once from left to right: a lexer over
    code units and a stack machine over its tokens.  A duplicate key keeps
    the last value.  The result is [None] where [JSON.parse] throws a
    [SyntaxError]. *)

Module JSON.

Inductive token : Type :=
| TLBrace | TRBrace | TLBracket | TRBracket | TColon | TComma
| TValue (v : JSValue).

Inductive num_state : Type :=
| NMinus | NZero | NInt | NDot | NFrac | NExp | NExpSign | NExpDigits.

Definition num_accepting (st : num_state) : bool :=
  match st with
  | NZero | NInt | NFrac | NExpDigits => true
  | _ => false
  end.

Definition is_e (c : N) : bool := ((c =? 101) || (c =? 69))%N.

Definition num_step (st : num_state) (c : N) : option num_state :=
  match st with
  | NMinus => if (c =? 48)%N then Some NZero else if is_digit c then Some NInt else None
  | NZero => if (c =? 46)%N then Some NDot else if is_e c then Some NExp else None
  | NInt =>
      if is_digit c then Some NInt
      else if (c =? 46)%N then Some NDot else if is_e c then Some NExp else None
  | NDot => if is_digit c then Some NFrac else None
  | NFrac => if is_digit c then Some NFrac else if is_e c then Some NExp else None
  | NExp =>
      if ((c =? 43) || (c =? 45))%N then Some NExpSign
      else if is_digit c then Some NExpDigits else None
  | NExpSign => if is_digit c then Some NExpDigits else None
  | NExpDigits => if is_digit c then Some NExpDigits else None
  end.

Definition hex_value (c : N) : option N :=
  if is_digit c then Some (c - 48)%N
  else if ((97 <=? c) && (c <=? 102))%N then Some (c - 87)%N
  else if ((65 <=? c) && (c <=? 70))%N then Some (c - 55)%N
  else None.

(** Accumulators hold the code units read so far in reverse. *)
Inductive lex_state : Type :=
| LIdle
| LString (acc : jsstring)
| LEscape (acc : jsstring)
| LUnicode (acc : jsstring) (hex : list N)
| LNumber (st : num_state) (acc : jsstring)
| LLiteral (rest : jsstring) (v : JSValue).

Definition is_json_whitespace (c : N) : bool :=
  ((c =? 9) || (c =? 10) || (c =? 13) || (c =? 32))%N.

Definition lex_idle (c : N) : option (lex_state * list token) :=
  if is_json_whitespace c then Some (LIdle, [])
  else if (c =? 123)%N then Some (LIdle, [TLBrace])
  else if (c =? 125)%N then Some (LIdle, [TRBrace])
  else if (c =? 91)%N then Some (LIdle, [TLBracket])
  else if (c =? 93)%N then Some (LIdle, [TRBracket])
  else if (c =? 58)%N then Some (LIdle, [TColon])
  else if (c =? 44)%N then Some (LIdle, [TComma])
  else if (c =? 34)%N then Some (LString [], [])
  else if (c =? 45)%N then Some (LNumber NMinus [c], [])
  else if (c =? 48)%N then Some (LNumber NZero [c], [])
  else if is_digit c then Some (LNumber NInt [c], [])
  else if (c =? 116)%N then Some (LLiteral (js "rue") (JBool true), [])
  else if (c =? 102)%N then Some (LLiteral (js "alse") (JBool false), [])
  else if (c =? 110)%N then Some (LLiteral (js "ull") JNull, [])
  else None.

Definition escape_value (c : N) : option N :=
  if (c =? 34)%N then Some 34%N            (* quotation mark *)
  else if (c =? 92)%N then Some 92%N       (* reverse solidus *)
  else if (c =? 47)%N then Some 47%N       (* solidus *)
  else if (c =? 98)%N then Some 8%N        (* b: backspace *)
  else if (c =? 102)%N then Some 12%N      (* f: form feed *)
  else if (c =? 110)%N then Some 10%N      (* n: line feed *)
  else if (c =? 114)%N then Some 13%N      (* r: carriage return *)
  else if (c =? 116)%N then Some 9%N       (* t: tab *)
  else None.

Definition lex_step (ls : lex_state) (c : N) : option (lex_state * list token) :=
  match ls with
  | LIdle => lex_idle c
  | LString acc =>
      if (c =? 34)%N then Some (LIdle, [TValue (JString (rev acc))])
      else if (c =? 92)%N then Some (LEscape acc, [])
      else if (c <? 32)%N then None
      else Some (LString (c :: acc), [])
  | LEscape acc =>
      if (c =? 117)%N then Some (LUnicode acc [], [])
      else
        match escape_value c with
        | Some u => Some (LString (u :: acc), [])
        | None => None
        end
  | LUnicode acc hex =>
      match hex_value c with
      | None => None
      | Some h =>
          match hex with
          | [h1; h2; h3] =>
              Some (LString ((h1 * 4096 + h2 * 256 + h3 * 16 + h)%N :: acc), [])
          | _ => Some (LUnicode acc (hex ++ [h]), [])
          end
      end
  | LNumber st acc =>
      match num_step st c with
      | Some st' => Some (LNumber st' (c :: acc), [])
      | None =>
          if num_accepting st then
            match lex_idle c with
            | Some (ls', toks) => Some (ls', TValue (JNumber (rev acc)) :: toks)
            | None => None
            end
          else None
      end
  | LLiteral rest v =>
      match rest with
      | [] => None
      | x :: rest' =>
          if (c =? x)%N then
            match rest' with
            | [] => Some (LIdle, [TValue v])
            | _ :: _ => Some (LLiteral rest' v, [])
            end
          else None
      end
  end.

(** End of input. *)
Definition lex_end (ls : lex_state) : option (list token) :=
  match ls with
  | LIdle => Some []
  | LNumber st acc => if num_accepting st then Some [TValue (JNumber (rev acc))] else None
  | _ => None
  end.

(** An open array with its elements so far (reversed), or an open object
    with its members so far and the key that awaits its value. *)
Inductive frame : Type :=
| FArr (acc : list JSValue)
| FObj (acc : list (jsstring * JSValue)) (key : option jsstring).

Inductive mode : Type :=
| MValue | MValueOrClose | MKeyOrClose | MKey | MColon | MCommaOrClose
| MDone (v : JSValue).

Definition parse_state : Type := (list frame * mode)%type.

Definition deliver (v : JSValue) (stack : list frame) : option parse_state :=
  match stack with
  | [] => Some ([], MDone v)
  | FArr acc :: st => Some (FArr (v :: acc) :: st, MCommaOrClose)
  | FObj acc (Some k) :: st => Some (FObj (obj_set k v acc) None :: st, MCommaOrClose)
  | FObj _ None :: _ => None
  end.

Definition close_array (stack : list frame) : option parse_state :=
  match stack with
  | FArr acc :: st => deliver (JArray (rev acc)) st
  | _ => None
  end.

Definition close_object (stack : list frame) : option parse_state :=
  match stack with
  | FObj acc None :: st => deliver (JObject acc) st
  | _ => None
  end.

Definition open_key (k : jsstring) (stack : list frame) : option parse_state :=
  match stack with
  | FObj acc None :: st => Some (FObj acc (Some k) :: st, MColon)
  | _ => None
  end.

Definition parse_step (ps : parse_state) (t : token) : option parse_state :=
  let (stack, m) := ps in
  match m, t with
  | (MValue | MValueOrClose), TValue v => deliver v stack
  | (MValue | MValueOrClose), TLBracket => Some (FArr [] :: stack, MValueOrClose)
  | (MValue | MValueOrClose), TLBrace => Some (FObj [] None :: stack, MKeyOrClose)
  | MValueOrClose, TRBracket => close_array stack
  | (MKeyOrClose | MKey), TValue (JString k) => open_key k stack
  | MKeyOrClose, TRBrace => close_object stack
  | MColon, TColon => Some (stack, MValue)
  | MCommaOrClose, TComma =>
      match stack with
      | FArr _ :: _ => Some (stack, MValue)
      | FObj _ None :: _ => Some (stack, MKey)
      | _ => None
      end
  | MCommaOrClose, TRBracket => close_array stack
  | MCommaOrClose, TRBrace => close_object stack
  | _, _ => None
  end.

Fixpoint feed (ps : parse_state) (toks : list token) : option parse_state :=
  match toks with
  | [] => Some ps
  | t :: rest =>
      match parse_step ps t with
      | Some ps' => feed ps' rest
      | None => None
      end
  end.

Definition finish (ps : parse_state) : option JSValue :=
  match ps with
  | ([], MDone v) => Some v
  | _ => None
  end.

Fixpoint run (ls : lex_state) (ps : parse_state) (s : jsstring) : option JSValue :=
  match s with
  | [] =>
      match lex_end ls with
      | Some toks =>
          match feed ps toks with
          | Some ps' => finish ps'
          | None => None
          end
      | None => None
      end
  | c :: r =>
      match lex_step ls c with
      | Some (ls', toks) =>
          match feed ps toks with
          | Some ps' => run ls' ps' r
          | None => None
          end
      | None => None
      end
  end.

Definition parse (text : jsstring) : option JSValue :=
  run LIdle ([], MValue) text.

End JSON.



(** ** The network

    Both files make their one outbound call with [fetch] and read the
    response with [response.json()].  A computation that may call the
    network is a function of the log of requests sent so far; the network
    itself is an oracle that says how each request completes.  The log
    survives an exception, so that what was sent before a [catch] stays
    recorded. *)

(** The agent that routes a call through an outbound proxy. *)
Inductive Agent : Type :=
| HttpsProxyAgent (proxy : jsstring).

(** [fetch(url, {method, headers, body: JSON.stringify(init_body), agent})] *)
Record FetchRequest : Type := mkFetchRequest {
  url : jsstring;
  init_method : jsstring;
  init_content_type : jsstring;
  init_body : JSValue;
  init_agent : option Agent
}.

(** What the sources observe of a [Response]: its status, and how
    [response.json()] completes. *)
Record Response : Type := mkResponse {
  status : Z;
  json : Outcome JSValue
}.

(** [response.ok] *)
Definition ok (r : Response) : bool := ((200 <=? status r) && (status r <=? 299))%Z.

Section Net.

Variable fetch : FetchRequest -> Outcome Response.

Definition Net (A : Type) : Type := list FetchRequest -> Outcome A * list FetchRequest.

Definition ret {A : Type} (a : A) : Net A := fun log => (Return a, log).

Definition bind {A B : Type} (c : Net A) (k : A -> Net B) : Net B :=
  fun log =>
    match c log with
    | (Return a, log') => k a log'
    | (Throw e, log') => (Throw e, log')
    end.

Definition lift {A : Type} (c : Outcome A) : Net A := fun log => (c, log).

(** [await fetch(...)] *)
Definition await_fetch (r : FetchRequest) : Net Response :=
  fun log => (fetch r, log ++ [r]).

(** [try { c } catch (error) { h error }] *)
Definition try_net {A : Type} (c : Net A) (h : JSError -> Net A) : Net A :=
  fun log =>
    match c log with
    | (Return a, log') => (Return a, log')
    | (Throw e, log') => h e log'
    end.

Definition run_net {A : Type} (c : Net A) : Outcome A * list FetchRequest := c [].

End Net.

Declare Scope net_scope.
Delimit Scope net_scope with net.
Notation "x <- c ;; k" := (bind c (fun x => k))
  (at level 61, c at next level, right associativity) : net_scope.

(** ** [types.ts] *)

(** [AnalysisResult].  The fields hold what the code stores in them at run
    time; [sources] is declared optional and is never written by the
    service, so every result lacks it. *)
Record AnalysisResult : Type := mkAnalysisResult {
  summary : JSValue;
  keyPoints : JSValue;
  conclusion : JSValue;
  detailedAnalysis : JSValue
}.

(** ** [src/services/geminiService.ts] *)

Module GeminiService.

(** [fetch('/api/gemini', { method: 'POST', headers: { 'Content-Type':
    'application/json' }, body: JSON.stringify(payload) })] *)
Definition gateway_request (payload : JSValue) : FetchRequest :=
  {| url := js "/api/gemini";
     init_method := js "POST";
     init_content_type := js "application/json";
     init_body := payload;
     init_agent := None |}.

Section Service.

Variable engine : Engine.
Variable fetch : FetchRequest -> Outcome Response.

Local Open Scope net_scope.

(** [aiResponse.includes('{')]: a string method, and an array method too. *)
Definition call_includes (aiResponse : JSValue) : Outcome bool :=
  match aiResponse with
  | JString s => Return (includes_lbrace s)
  | JArray items => Return (existsb (fun x => strict_eq_string x [cu_lbrace]) items)
  | JUndefined | JNull =>
      Throw (TypeError engine (ReadOfNullish aiResponse (js "includes")))
  | _ => Throw (TypeError engine (NotAFunction (js "aiResponse.includes")))
  end.

(** [aiResponse.replace(/```json|```/g, '').trim()] *)
Definition call_replace_trim (aiResponse : JSValue) : Outcome jsstring :=
  match aiResponse with
  | JString s => Return (trim (replace_fences s))
  | JUndefined | JNull =>
      Throw (TypeError engine (ReadOfNullish aiResponse (js "replace")))
  | _ => Throw (TypeError engine (NotAFunction (js "aiResponse.replace")))
  end.

(** [aiResponse.substring(0, 100)] *)
Definition call_substring (aiResponse : JSValue) : Outcome jsstring :=
  match aiResponse with
  | JString s => Return (substring0 100 s)
  | JUndefined | JNull =>
      Throw (TypeError engine (ReadOfNullish aiResponse (js "substring")))
  | _ => Throw (TypeError engine (NotAFunction (js "aiResponse.substring")))
  end.

(** [JSON.parse(text)] *)
Definition JSON_parse (text : jsstring) : Outcome JSValue :=
  match JSON.parse text with
  | Some v => Return v
  | None => Throw (SyntaxError engine text)
  end.

(** The [if (response.status === 429 || data.error === 'RATE_LIMIT')]
    branch. *)
Definition rate_limit_result (data : JSValue) : Outcome AnalysisResult :=
  m <-- get_prop engine data (js "message") ;;
  limitMessage <-- or_else engine m
    (Return (JString (js "Google Gemini API 调用额度已超限，请稍后再试。"))) ;;
  Return {| summary := JString (js "错误: API 额度超限");
            keyPoints := JArray [limitMessage];
            conclusion := JString (js "请求失败（额度超限）");
            detailedAnalysis := limitMessage |}.

(** The rest of the [if (!response.ok)] block. *)
Definition other_error_result (response : Response) (data : JSValue)
  : Outcome AnalysisResult :=
  e <-- get_prop engine data (js "error") ;;
  em <-- get_opt engine e (js "message") ;;
  errorMessage <-- or_else engine em
    (m <-- get_prop engine data (js "message") ;;
     or_else engine m
       (Return (JString (js "请求失败: " ++ decimal_of_Z (status response))))) ;;
  shown <-- ToString engine errorMessage ;;
  Return {| summary := JString (js "错误: " ++ shown);
            keyPoints := JArray [];
            conclusion := JString (js "请求失败");
            detailedAnalysis := errorMessage |}.

Definition error_result (response : Response) (data : JSValue)
  : Outcome AnalysisResult :=
  limited <-- (if (status response =? 429)%Z then Return true
               else e <-- get_prop engine data (js "error") ;;
                    Return (strict_eq_string e (js "RATE_LIMIT"))) ;;
  if limited : bool then rate_limit_result data
  else other_error_result response data.

(** [data.candidates?.[0]?.content?.parts?.[0]?.text || ''] *)
Definition extract_text (data : JSValue) : Outcome JSValue :=
  candidates <-- get_prop engine data (js "candidates") ;;
  candidate <-- get_opt engine candidates (js "0") ;;
  content <-- get_opt engine candidate (js "content") ;;
  parts <-- get_opt engine content (js "parts") ;;
  part <-- get_opt engine parts (js "0") ;;
  text <-- get_opt engine part (js "text") ;;
  or_else engine text (Return (JString [])).

(** The fields read from the parsed JSON, each with its fallback. *)
Definition structured_result (parsed aiResponse : JSValue) : Outcome AnalysisResult :=
  s <-- get_prop engine parsed (js "summary") ;;
  s' <-- or_else engine s (Return (JString (js "分析完成"))) ;;
  k <-- get_prop engine parsed (js "keyPoints") ;;
  k' <-- or_else engine k (Return (JArray [])) ;;
  c <-- get_prop engine parsed (js "conclusion") ;;
  c' <-- or_else engine c (Return (JString [])) ;;
  d <-- get_prop engine parsed (js "detailedAnalysis") ;;
  d' <-- or_else engine d (Return aiResponse) ;;
  Return {| summary := s'; keyPoints := k'; conclusion := c';
            detailedAnalysis := d' |}.

(** The inner [try { if (aiResponse.includes('{')) { ... return ... } }
    catch (e) { }]: [Some r] when the block returns [r], [None] when
    control falls through to the plain-text presentation. *)
Definition try_structured (aiResponse : JSValue) : Outcome (option AnalysisResult) :=
  try_catch
    (found <-- call_includes aiResponse ;;
     if found : bool then
       text <-- call_replace_trim aiResponse ;;
       parsed <-- JSON_parse text ;;
       r <-- structured_result parsed aiResponse ;;
       Return (Some r)
     else Return None)
    (fun _ => Return None).

(** The plain-text presentation. *)
Definition plain_result (aiResponse : JSValue) : Outcome AnalysisResult :=
  head <-- call_substring aiResponse ;;
  Return {| summary := JString (head ++ js "...");
            keyPoints := JArray [aiResponse];
            conclusion := JString (js "解析完成");
            detailedAnalysis := aiResponse |}.

(** The body of the outer [try], from [response] on. *)
Definition normalize (response : Response) : Outcome AnalysisResult :=
  data <-- json response ;;
  if negb (ok response) then error_result response data
  else
    aiResponse <-- extract_text data ;;
    r <-- try_structured aiResponse ;;
    match r with
    | Some result => Return result
    | None => plain_result aiResponse
    end.

(** The outer [catch (error)]. *)
Definition caught_result (error : JSError) : AnalysisResult :=
  {| summary := JString (js "错误: " ++ error_message error);
     keyPoints := JArray [];
     conclusion := JString (js "请求失败");
     detailedAnalysis := JString (error_message error) |}.

Definition requestBackend (payload : JSValue) : Net AnalysisResult :=
  try_net
    (response <- await_fetch fetch (gateway_request payload) ;;
     lift (normalize response))
    (fun error => ret (caught_result error)).

(** [base64.split(',')[1] || base64] *)
Definition strip_data_url (base64 : jsstring) : jsstring :=
  match nth_error (split_comma base64) 1 with
  | Some (c :: r) => c :: r
  | _ => base64
  end.

Definition analyzeText (text : jsstring) : Net AnalysisResult :=
  requestBackend (JObject [(js "text", JString text)]).

Definition analyzeImage (base64 : jsstring) : Net AnalysisResult :=
  requestBackend
    (JObject [(js "text", JString (js "请分析这张图片的内容"));
              (js "image", JString (strip_data_url base64))]).

Definition analyzeDocument (base64 mimeType : jsstring) : Net AnalysisResult :=
  requestBackend
    (JObject [(js "text", JString (js "请分析这份文档的内容"));
              (js "file", JObject [(js "base64", JString (strip_data_url base64));
                                   (js "mimeType", JString mimeType)])]).

Definition analyzeAudioFile (base64 mimeType : jsstring) : Net AnalysisResult :=
  analyzeDocument base64 mimeType.

Definition analyzeVideoFile (base64 mimeType : jsstring) : Net AnalysisResult :=
  analyzeDocument base64 mimeType.

Definition analyzeWebUrl (url : jsstring) : Net AnalysisResult :=
  requestBackend (JObject [(js "text", JString (js "请分析此网页内容：" ++ url))]).

Definition analyzeVideoUrl (url : jsstring) : Net AnalysisResult :=
  requestBackend (JObject [(js "text", JString (js "请分析此视频内容：" ++ url))]).

End Service.

End GeminiService.

(** ** [api/gemini.ts] *)

Module Gateway.

(** [process.env], as [dotenv] leaves it at process start, and the one
    collaborator that is loaded on demand: [new HttpsProxyAgent(proxy)]
    behind [await import('https-proxy-agent')], which may throw. *)
Record Env : Type := mkEnv {
  GOOGLE_API_KEY : option jsstring;
  NODE_ENV : option jsstring;
  HTTP_PROXY : option jsstring;
  new_HttpsProxyAgent : jsstring -> Outcome Agent
}.

(** What the handler reads of a [NextApiRequest]. *)
Record NextApiRequest : Type := mkRequest {
  method : option jsstring;
  body : JSValue
}.

(** [res.status(code).json(value)] *)
Record ApiResponse : Type := mkApiResponse {
  res_status : Z;
  res_json : JSValue
}.

(** The two shapes of an upstream content part. *)
Definition text_part (text : JSValue) : JSValue :=
  JObject [(js "text", text)].

Definition inline_data_part (mimeType data : JSValue) : JSValue :=
  JObject [(js "inlineData", JObject [(js "mimeType", mimeType); (js "data", data)])].

(** [parts.push(x)] *)
Definition push (parts : list JSValue) (x : JSValue) : list JSValue := parts ++ [x].

Definition API_URL : jsstring :=
  js "https://generativelanguage.googleapis.com/v1beta/models/gemini-3-flash-preview:generateContent".

(** A [string | undefined], as [process.env.X] and [req.method] are. *)
Definition optional_string (x : option jsstring) : JSValue :=
  match x with
  | Some s => JString s
  | None => JUndefined
  end.

(** The envelopes the handler answers with. *)
Definition liveness_response : ApiResponse :=
  {| res_status := 200;
     res_json := JObject [(js "ok", JBool true);
                          (js "message", JString (js "Gemini proxy is running"))] |}.

Definition method_not_allowed_response (shown : jsstring) : ApiResponse :=
  {| res_status := 405;
     res_json := JObject
       [(js "error", JString (js "METHOD_NOT_ALLOWED"));
        (js "message",
         JString (js "仅支持 POST /api/gemini，请使用 POST 请求。当前方法: " ++ shown))] |}.

Definition invalid_request_response : ApiResponse :=
  {| res_status := 400;
     res_json := JObject
       [(js "error", JString (js "INVALID_REQUEST"));
        (js "message",
         JString (js "请求 body 不能为空，请至少提供 text、image 或 file.base64 其中之一。"))] |}.

Definition rate_limit_response (data : JSValue) : ApiResponse :=
  {| res_status := 429;
     res_json := JObject
       [(js "error", JString (js "RATE_LIMIT"));
        (js "message",
         JString (js "Google Gemini API 调用额度已超限，请稍后重试或检查配额设置。"));
        (js "raw", data)] |}.

Definition upstream_error_response (code : Z) (message data : JSValue) : ApiResponse :=
  {| res_status := code;
     res_json := JObject
       [(js "error", JString (js "UPSTREAM_ERROR"));
        (js "message", message);
        (js "raw", data)] |}.

(** [error.message || 'Gemini 代理内部错误'] *)
Definition internal_error_response (error : JSError) : ApiResponse :=
  {| res_status := 500;
     res_json := JObject
       [(js "error", JString (js "INTERNAL_ERROR"));
        (js "message",
         JString (match error_message error with
                  | [] => js "Gemini 代理内部错误"
                  | c :: r => c :: r
                  end))] |}.

Section Handler.

Variable engine : Engine.
Variable env : Env.
Variable fetch : FetchRequest -> Outcome Response.

Local Open Scope net_scope.

(** [process.env.NODE_ENV === 'development'] *)
Definition isLocal : bool :=
  strict_eq_string (optional_string (NODE_ENV env)) (js "development").

(** [!req.body || (!req.body.text && !req.body.image &&
      !(req.body.file && req.body.file.base64))] *)
Definition is_invalid_body (body : JSValue) : Outcome bool :=
  if negb (truthy engine body) then Return true
  else
    text <-- get_prop engine body (js "text") ;;
    if truthy engine text then Return false
    else
      image <-- get_prop engine body (js "image") ;;
      if truthy engine image then Return false
      else
        file <-- get_prop engine body (js "file") ;;
        file_base64 <-- and_then engine file
          (file' <-- get_prop engine body (js "file") ;;
           get_prop engine file' (js "base64")) ;;
        Return (negb (truthy engine file_base64)).

(** The construction of [contents[0].parts]: the text part, then one
    [push] for the image and one for the file. *)
Definition build_parts (body : JSValue) : Outcome (list JSValue) :=
  text <-- get_prop engine body (js "text") ;;
  text' <-- or_else engine text (Return (JString (js "Hello"))) ;;
  let parts := [text_part text'] in
  image <-- get_prop engine body (js "image") ;;
  parts <-- (if truthy engine image then
               data <-- get_prop engine body (js "image") ;;
               Return (push parts (inline_data_part (JString (js "image/jpeg")) data))
             else Return parts) ;;
  file <-- get_prop engine body (js "file") ;;
  file_base64 <-- and_then engine file
    (file' <-- get_prop engine body (js "file") ;;
     get_prop engine file' (js "base64")) ;;
  if truthy engine file_base64 then
    file' <-- get_prop engine body (js "file") ;;
    mimeType <-- get_prop engine file' (js "mimeType") ;;
    mimeType' <-- or_else engine mimeType
      (Return (JString (js "application/octet-stream"))) ;;
    file'' <-- get_prop engine body (js "file") ;;
    data <-- get_prop engine file'' (js "base64") ;;
    Return (push parts (inline_data_part mimeType' data))
  else Return parts.

(** [{ contents }] with [contents = [{ parts }]] *)
Definition request_body (parts : list JSValue) : JSValue :=
  JObject [(js "contents", JArray [JObject [(js "parts", JArray parts)]])].

(** [fetchOptions.agent], set only in the local environment and only when
    a proxy is configured. *)
Definition proxy_agent : Outcome (option Agent) :=
  if isLocal then
    match HTTP_PROXY env with
    | Some (c :: r) =>
        agent <-- new_HttpsProxyAgent env (c :: r) ;;
        Return (Some agent)
    | _ => Return None
    end
  else Return None.

Definition upstream_url : Outcome jsstring :=
  key <-- ToString engine (optional_string (GOOGLE_API_KEY env)) ;;
  Return (API_URL ++ js "?key=" ++ key).

(** [data.error?.message || data.message ||
     `上游服务返回错误: ${response.status}`] *)
Definition upstream_message (response : Response) (data : JSValue) : Outcome JSValue :=
  e <-- get_prop engine data (js "error") ;;
  em <-- get_opt engine e (js "message") ;;
  or_else engine em
    (m <-- get_prop engine data (js "message") ;;
     or_else engine m
       (Return (JString (js "上游服务返回错误: " ++ decimal_of_Z (status response))))).

(** The [if (!response.ok)] block and the final [return]. *)
Definition classify (response : Response) (data : JSValue) : Outcome ApiResponse :=
  if negb (ok response) then
    if (status response =? 429)%Z then Return (rate_limit_response data)
    else
      message <-- upstream_message response data ;;
      Return (upstream_error_response (status response) message data)
  else Return {| res_status := 200; res_json := data |}.

(** [fetch(`${API_URL}?key=${apiKey}`, fetchOptions)] *)
Definition upstream_request (target : jsstring) (parts : list JSValue)
  (agent : option Agent) : FetchRequest :=
  {| url := target;
     init_method := js "POST";
     init_content_type := js "application/json";
     init_body := request_body parts;
     init_agent := agent |}.

(** The [try] block. *)
Definition forward (body : JSValue) : Net ApiResponse :=
  parts <- lift (build_parts body) ;;
  agent <- lift proxy_agent ;;
  target <- lift upstream_url ;;
  response <- await_fetch fetch (upstream_request target parts agent) ;;
  data <- lift (json response) ;;
  lift (classify response data).

Definition handler (req : NextApiRequest) : Net ApiResponse :=
  if strict_eq_string (optional_string (method req)) (js "GET") then
    ret liveness_response
  else if negb (strict_eq_string (optional_string (method req)) (js "POST")) then
    shown <- lift (ToString engine (optional_string (method req))) ;;
    ret (method_not_allowed_response shown)
  else
    invalid <- lift (is_invalid_body (body req)) ;;
    if invalid : bool then ret invalid_request_response
    else
      try_net (forward (body req)) (fun error => ret (internal_error_response error)).

End Handler.

End Gateway.

(** ** Reading a field in statements

    [read v k] is [v.k] where the read cannot throw, and [undefined] where
    [v] is [null] or [undefined]; the theorems use it to name the fields of
    a body. *)
Definition read (engine : Engine) (v : JSValue) (key : jsstring) : JSValue :=
  match get_prop engine v key with
  | Return w => w
  | Throw _ => JUndefined
  end.

(** [a || d] for a default [d] that is a value. *)
Definition or_default (engine : Engine) (a d : JSValue) : JSValue :=
  if truthy engine a then a else d.

(** The RequestPayload invariant as the handler checks it: the body is
    there and at least one of [text], [image], [file.base64] is truthy. *)
Definition accepted (engine : Engine) (body : JSValue) : bool :=
  truthy engine body
  && (truthy engine (read engine body (js "text"))
      || truthy engine (read engine body (js "image"))
      || (truthy engine (read engine body (js "file"))
          && truthy engine (read engine (read engine body (js "file")) (js "base64")))).

(** [summary], [keyPoints] and [conclusion] are all defined. *)
Definition fully_populated (r : AnalysisResult) : Prop :=
  summary r <> JUndefined /\ keyPoints r <> JUndefined /\ conclusion r <> JUndefined.

(** A computation that resolves to a fully populated result. *)
Definition resolves_populated (c : Net AnalysisResult) : Prop :=
  exists r : AnalysisResult, fst (run_net c) = Return r /\ fully_populated r.


(** The result of the rate-limit branch for the message [m]. *)
Definition quota_result (m : JSValue) : AnalysisResult :=
  {| summary := JString (js "错误: API 额度超限");
     keyPoints := JArray [m];
     conclusion := JString (js "请求失败（额度超限）");
     detailedAnalysis := m |}.

(** The payload [analyzeImage] sends for the image data [image]. *)
Definition image_payload (image : jsstring) : JSValue :=
  JObject [(js "text", JString (js "请分析这张图片的内容"));
           (js "image", JString image)].

(** The plain-text presentation of the text [t]. *)
Definition plain_text_result (t : jsstring) : AnalysisResult :=
  {| summary := JString (firstn 100 t ++ js "...");
     keyPoints := JArray [JString t];
     conclusion := JString (js "解析完成");
     detailedAnalysis := JString t |}.

Definition default_limit_message : JSValue :=
  JString (js "Google Gemini API 调用额度已超限，请稍后再试。").

(** A field that is the empty string, or is not there. *)
Definition empty_or_missing (v : JSValue) : Prop :=
  v = JUndefined \/ v = JString [].

(** ** A concrete engine

    The theorems hold for every [Engine].  To evaluate the model on
    concrete inputs one engine is fixed here, with error messages worded as
    V8 words them.  Its reading of numbers is exact on literals that are
    already in the form [Number::toString] prints ([0], [7], [429],
    [-1.5]); none of the evaluations below meets a number. *)
Module SampleEngine.

Fixpoint mantissa_is_zero (literal : jsstring) : bool :=
  match literal with
  | [] => true
  | c :: r =>
      if JSON.is_e c then true
      else if ((49 <=? c) && (c <=? 57))%N then false
      else mantissa_is_zero r
  end.

Definition show_nullish (v : JSValue) : jsstring :=
  match v with
  | JNull => js "null"
  | _ => js "undefined"
  end.

Definition message_of_site (site : TypeErrorSite) : jsstring :=
  match site with
  | ReadOfNullish base prop =>
      js "Cannot read properties of " ++ show_nullish base
         ++ js " (reading '" ++ prop ++ js "')"
  | NotAFunction callee => callee ++ js " is not a function"
  | NoPrimitiveValue => js "Cannot convert object to primitive value"
  end.

Definition sample_engine : Engine :=
  {| number_is_falsy := mantissa_is_zero;
     number_to_string := fun literal => literal;
     type_error_message := message_of_site;
     syntax_error_message := fun _ => js "Unexpected token in JSON" |}.

End SampleEngine.
Import SampleEngine.

(** ** Concrete inputs *)
Module Samples.

(** A deployment outside the local environment, no proxy. *)
Definition sample_env : Gateway.Env :=
  {| Gateway.GOOGLE_API_KEY := Some (js "k");
     Gateway.NODE_ENV := Some (js "production");
     Gateway.HTTP_PROXY := None;
     Gateway.new_HttpsProxyAgent := fun proxy => Return (HttpsProxyAgent proxy) |}.

(** [POST] with body [{ text: 'hi' }] *)
Definition post_hi : Gateway.NextApiRequest :=
  {| Gateway.method := Some (js "POST");
     Gateway.body := JObject [(js "text", JString (js "hi"))] |}.

(** The upstream request the handler builds for [post_hi] under
    [sample_env]. *)
Definition upstream_request_hi : FetchRequest :=
  Gateway.upstream_request
    (Gateway.API_URL ++ js "?key=k")
    [Gateway.text_part (JString (js "hi"))]
    None.

(** A success body of the upstream service with one candidate whose first
    part holds [text]. *)
Definition candidates_body (text : jsstring) : JSValue :=
  JObject
    [(js "candidates",
      JArray [JObject
                [(js "content",
                  JObject [(js "parts", JArray [JObject [(js "text", JString text)]])])]])].

(** An upstream that answers every call with [response]. *)
Definition always (response : Response) : FetchRequest -> Outcome Response :=
  fun _ => Return response.

(** Status 200 with a body that is not JSON: [response.json()] rejects. *)
Definition not_json_error : JSError :=
  mkError (js "SyntaxError") (js "Unexpected token < in JSON at position 0").

Definition ok_but_not_json : Response :=
  {| status := 200; json := Throw not_json_error |}.

Definition ok_with_answer : Response :=
  {| status := 200; json := Return (candidates_body (js "plain answer")) |}.

(** [{ text: '', image: '', file: { base64: '' } }] *)
Definition all_empty_body : JSValue :=
  JObject [(js "text", JString []);
           (js "image", JString []);
           (js "file", JObject [(js "base64", JString [])])].

(** JSON text with words in front of it, and the same JSON alone. *)
Definition prefixed_json_text : jsstring :=
  jsq "Result: {'summary':'S','keyPoints':['a'],'conclusion':'C'}".

Definition bare_json_text : jsstring :=
  jsq "{'summary':'S','keyPoints':['a'],'conclusion':'C'}".

(** A gateway success envelope whose extracted text is [text]. *)
Definition success_with (text : jsstring) : Response :=
  {| status := 200; json := Return (candidates_body text) |}.

(** The gateway's own answer to an upstream 429. *)
Definition gateway_429 : Response :=
  {| status := 429;
     json := Return (Gateway.res_json (Gateway.rate_limit_response JNull)) |}.

(** A 503 whose body names the error kind [RATE_LIMIT]. *)
Definition rate_limit_503 : Response :=
  {| status := 503;
     json := Return (JObject [(js "error", JString (js "RATE_LIMIT"))]) |}.

Definition text_payload : JSValue := JObject [(js "text", JString (js "hi"))].

End Samples.
Import Samples.

(** ** [src/App.tsx]: the caller of the service

    The component's state and its two handlers with logic,
    [handleFileUpload] (with the [onload] callback of its [FileReader]) and
    [handleProcess].  Rendering is left out. *)

Module App.

(** [types.ts] *)
Inductive InputType : Type := TEXT | IMAGE | AUDIO | VIDEO | WEB.

Inductive VideoMode : Type := URL | FILE.

Record FileData : Type := mkFileData {
  name : jsstring;
  type : jsstring;
  base64 : jsstring;
  rawText : option jsstring
}.

Record ProcessingState : Type := mkProcessingState {
  isAnalyzing : bool;
  error : option jsstring;
  result : option AnalysisResult
}.

(** The [useState] cells of the component. *)
Record State : Type := mkState {
  activeTab : InputType;
  videoMode : VideoMode;
  textInput : jsstring;
  videoUrl : jsstring;
  webUrl : jsstring;
  fileData : option FileData;
  status : ProcessingState
}.

Definition setActiveTab (tab : InputType) (st : State) : State :=
  {| activeTab := tab; videoMode := videoMode st; textInput := textInput st;
     videoUrl := videoUrl st; webUrl := webUrl st; fileData := fileData st;
     status := status st |}.

Definition setVideoMode (mode : VideoMode) (st : State) : State :=
  {| activeTab := activeTab st; videoMode := mode; textInput := textInput st;
     videoUrl := videoUrl st; webUrl := webUrl st; fileData := fileData st;
     status := status st |}.

Definition setFileData (fd : option FileData) (st : State) : State :=
  {| activeTab := activeTab st; videoMode := videoMode st; textInput := textInput st;
     videoUrl := videoUrl st; webUrl := webUrl st; fileData := fd;
     status := status st |}.

Definition setStatus (s : ProcessingState) (st : State) : State :=
  {| activeTab := activeTab st; videoMode := videoMode st; textInput := textInput st;
     videoUrl := videoUrl st; webUrl := webUrl st; fileData := fileData st;
     status := s |}.

(** What the handlers read of a DOM [File]. *)
Record File : Type := mkFile {
  file_name : jsstring;
  file_type : jsstring
}.

(** [reader.readAsText(file)] or [reader.readAsDataURL(file)] *)
Inductive ReadAs : Type := AsText | AsDataURL.

(** [s.endsWith(p)] *)
Definition ends_with (p s : jsstring) : bool := starts_with (rev p) (rev s).

(** The messages of the [throw new Error(...)] statements. *)
Definition no_text_message : jsstring := js "请输入文本内容或上传文件".
Definition no_image_message : jsstring := js "请上传图片文件".
Definition no_audio_message : jsstring := js "请上传音频文件".
Definition no_video_url_message : jsstring := js "请输入视频 URL".
Definition no_video_file_message : jsstring := js "请上传本地视频文件".
Definition no_web_url_message : jsstring := js "请输入网页链接 URL".

Section Component.

Variable engine : Engine.
Variable fetch : FetchRequest -> Outcome Response.

(** [String.prototype.toLowerCase], the engine's (Unicode case mapping). *)
Variable toLowerCase : jsstring -> jsstring.

(** How the [FileReader] reads a file in a mode: the [result] that
    [onload] receives. *)
Variable reader : File -> ReadAs -> jsstring.

Local Open Scope net_scope.

(** The mode [handleFileUpload] starts the reader in. *)
Definition read_mode (file : File) : ReadAs :=
  if JsString.eqb (file_type file) (js "text/plain") then AsText else AsDataURL.

(** [reader.onload] *)
Definition onload (file : File) (result : jsstring) (st : State) : State :=
  let st :=
    setFileData
      (Some {| name := file_name file;
               type := file_type file;
               base64 := result;
               rawText := if JsString.eqb (file_type file) (js "text/plain")
                          then Some result else None |})
      st in
  if starts_with (js "image/") (file_type file) then setActiveTab IMAGE st
  else if starts_with (js "audio/") (file_type file) then setActiveTab AUDIO st
  else if starts_with (js "video/") (file_type file) then
    setVideoMode FILE (setActiveTab VIDEO st)
  else if JsString.eqb (file_type file) (js "application/pdf")
          || ends_with (js ".pdf") (toLowerCase (file_name file)) then
    setActiveTab TEXT st
  else st.

(** [handleFileUpload], from the chosen file ([e.target.files?.[0]]) to the
    state once the reader has loaded it. *)
Definition handleFileUpload (chosen : option File) (st : State) : State :=
  match chosen with
  | None => st
  | Some file => onload file (reader file (read_mode file)) st
  end.

(** [clearFile] *)
Definition clearFile (st : State) : State := setFileData None st.

(** [throw new Error(message)] *)
Definition throw_error {A : Type} (message : jsstring) : Net A :=
  lift (Throw (mkError (js "Error") message)).

(** [textInput || fileData?.rawText] *)
Definition text_content (st : State) : option jsstring :=
  match textInput st with
  | _ :: _ => Some (textInput st)
  | [] =>
      match fileData st with
      | Some f => rawText f
      | None => None
      end
  end.

(** The [else] branch of the text tab: [content], refused when falsy. *)
Definition analyse_text (st : State) : Net AnalysisResult :=
  match text_content st with
  | Some (c :: r) => GeminiService.analyzeText engine fetch (c :: r)
  | _ => throw_error no_text_message
  end.

(** The body of the [try]: the value of [analysisResult]. *)
Definition analyse (st : State) : Net AnalysisResult :=
  match activeTab st with
  | TEXT =>
      match fileData st with
      | Some f =>
          if JsString.eqb (type f) (js "application/pdf")
          then GeminiService.analyzeDocument engine fetch (base64 f) (type f)
          else analyse_text st
      | None => analyse_text st
      end
  | IMAGE =>
      match fileData st with
      | Some f =>
          if negb (starts_with (js "image/") (type f)) then throw_error no_image_message
          else GeminiService.analyzeImage engine fetch (base64 f)
      | None => throw_error no_image_message
      end
  | AUDIO =>
      match fileData st with
      | Some f =>
          if negb (starts_with (js "audio/") (type f)) then throw_error no_audio_message
          else GeminiService.analyzeAudioFile engine fetch (base64 f) (type f)
      | None => throw_error no_audio_message
      end
  | VIDEO =>
      match videoMode st with
      | URL =>
          match trim (videoUrl st) with
          | [] => throw_error no_video_url_message
          | _ :: _ => GeminiService.analyzeVideoUrl engine fetch (videoUrl st)
          end
      | FILE =>
          match fileData st with
          | Some f =>
              if negb (starts_with (js "video/") (type f))
              then throw_error no_video_file_message
              else GeminiService.analyzeVideoFile engine fetch (base64 f) (type f)
          | None => throw_error no_video_file_message
          end
      end
  | WEB =>
      match trim (webUrl st) with
      | [] => throw_error no_web_url_message
      | _ :: _ => GeminiService.analyzeWebUrl engine fetch (webUrl st)
      end
  end.

(** [err.message || "分析失败，请检查输入或重试"] *)
Definition shown_error (err : JSError) : jsstring :=
  match error_message err with
  | [] => js "分析失败，请检查输入或重试"
  | c :: r => c :: r
  end.

Definition handleProcess (st : State) : Net State :=
  let st := setStatus {| isAnalyzing := true; error := None; result := None |} st in
  try_net
    (analysisResult <- analyse st ;;
     ret (setStatus {| isAnalyzing := false; error := None;
                       result := Some analysisResult |} st))
    (fun err =>
       ret (setStatus {| isAnalyzing := false; error := Some (shown_error err);
                         result := None |} st)).

End Component.

End App.

(** ** The service behind the gateway

    The development server forwards [/api] to the process that runs the
    handler, so the service's [fetch] is answered by [handler].  The request
    body and the answer cross the wire as JSON text; they are carried here
    as the JSON values themselves. *)
Definition via_gateway (engine : Engine) (env : Gateway.Env)
  (upstream : FetchRequest -> Outcome Response) : FetchRequest -> Outcome Response :=
  fun r =>
    match fst (run_net (Gateway.handler engine env upstream
                          {| Gateway.method := Some (init_method r);
                             Gateway.body := init_body r |})) with
    | Return res =>
        Return {| status := Gateway.res_status res;
                  json := Return (Gateway.res_json res) |}
    | Throw e => Throw e
    end.

(** ** Predicates of the further theorems *)

(** The fields have the types [AnalysisResult] declares. *)
Definition well_typed (r : AnalysisResult) : Prop :=
  (exists s, summary r = JString s)
  /\ (exists items, keyPoints r = JArray items)
  /\ (exists c, conclusion r = JString c).

(** The parts the request builder makes of a body. *)
Definition parts_of (engine : Engine) (body : JSValue) : list JSValue :=
  match Gateway.build_parts engine body with
  | Return parts => parts
  | Throw _ => []
  end.

(** [${apiKey}]: the key, or the text [undefined] when there is none. *)
Definition key_text (env : Gateway.Env) : jsstring :=
  match Gateway.GOOGLE_API_KEY env with
  | Some key => key
  | None => js "undefined"
  end.

(** The one request the handler sends for a body, with or without agent. *)
Definition request_for (engine : Engine) (env : Gateway.Env) (body : JSValue)
  (agent : option Agent) : FetchRequest :=
  Gateway.upstream_request (Gateway.API_URL ++ js "?key=" ++ key_text env)
    (parts_of engine body) agent.

(** [data.error?.message || data.message || fallback] *)
Definition message_of (engine : Engine) (data fallback : JSValue) : JSValue :=
  or_default engine (read engine (read engine data (js "error")) (js "message"))
    (or_default engine (read engine data (js "message")) fallback).

(** What the handler makes of the completion of its call: [response.json()],
    then the classification; an exception on the way ends in the [catch]
    block. *)
Definition answer_of (engine : Engine) (completion : Outcome Response)
  : Gateway.ApiResponse :=
  match (response <-- completion ;;
         data <-- json response ;;
         Gateway.classify engine response data) with
  | Return res => res
  | Throw error => Gateway.internal_error_response error
  end.


(** The payload [analyzeDocument] sends. *)
Definition document_payload (data mimeType : jsstring) : JSValue :=
  JObject [(js "text", JString (js "请分析这份文档的内容"));
           (js "file", JObject [(js "base64", JString data);
                                (js "mimeType", JString mimeType)])].

(** The result of the service's error branch for the message [m], shown
    as [shown]. *)
Definition failed_result (m : JSValue) (shown : jsstring) : AnalysisResult :=
  {| summary := JString (js "错误: " ++ shown);
     keyPoints := JArray [];
     conclusion := JString (js "请求失败");
     detailedAnalysis := m |}.

(** The text of the [message] field of the gateway's 400 answer. *)
Definition invalid_request_message : jsstring :=
  js "请求 body 不能为空，请至少提供 text、image 或 file.base64 其中之一。".

(** The result [requestBackend] resolves to for a payload. *)
Definition result_of (engine : Engine) (fetch : FetchRequest -> Outcome Response)
  (payload : JSValue) : AnalysisResult :=
  match fst (run_net (GeminiService.requestBackend engine fetch payload)) with
  | Return r => r
  | Throw e => GeminiService.caught_result e
  end.

(** The messages [handleProcess] can refuse with. *)
Definition refusal_messages : list jsstring :=
  [App.no_text_message; App.no_image_message; App.no_audio_message;
   App.no_video_url_message; App.no_video_file_message; App.no_web_url_message].

(** The state [handleProcess] leaves after a refusal with [message]. *)
Definition refused (message : jsstring) (st : App.State) : App.State :=
  App.setStatus {| App.isAnalyzing := false; App.error := Some message;
                   App.result := None |} st.

(** The state [handleProcess] leaves after the analysis gave [r]. *)
Definition analysed (r : AnalysisResult) (st : App.State) : App.State :=
  App.setStatus {| App.isAnalyzing := false; App.error := None;
                   App.result := Some r |} st.

(** The payload of the three operations that send a text only. *)
Definition text_only_payload (text : jsstring) : JSValue :=
  JObject [(js "text", JString text)].

(** [fileData?.type === 'application/pdf'] *)
Definition has_pdf (st : App.State) : bool :=
  match App.fileData st with
  | Some f => JsString.eqb (App.type f) (js "application/pdf")
  | None => false
  end.

(** The [error] field of an envelope. *)
Definition error_kind (res : Gateway.ApiResponse) : JSValue :=
  match Gateway.res_json res with
  | JObject fields =>
      match own_property (js "error") fields with
      | Some v => v
      | None => JUndefined
      end
  | _ => JUndefined
  end.

(** ** Further concrete inputs *)
Module Inputs.

(** Production with a proxy configured all the same. *)
Definition production_with_proxy : Gateway.Env :=
  {| Gateway.GOOGLE_API_KEY := Some (js "k");
     Gateway.NODE_ENV := Some (js "production");
     Gateway.HTTP_PROXY := Some (js "http://127.0.0.1:7890");
     Gateway.new_HttpsProxyAgent := fun proxy => Return (HttpsProxyAgent proxy) |}.

(** Local development behind a proxy. *)
Definition development_env : Gateway.Env :=
  {| Gateway.GOOGLE_API_KEY := Some (js "k");
     Gateway.NODE_ENV := Some (js "development");
     Gateway.HTTP_PROXY := Some (js "http://127.0.0.1:7890");
     Gateway.new_HttpsProxyAgent := fun proxy => Return (HttpsProxyAgent proxy) |}.

(** No key configured. *)
Definition keyless_env : Gateway.Env :=
  {| Gateway.GOOGLE_API_KEY := None;
     Gateway.NODE_ENV := Some (js "production");
     Gateway.HTTP_PROXY := None;
     Gateway.new_HttpsProxyAgent := fun proxy => Return (HttpsProxyAgent proxy) |}.

(** Upstream answers. *)
Definition too_many_requests : Response :=
  {| status := 429; json := Return JNull |}.

Definition unavailable_data : JSValue :=
  JObject [(js "error", JObject [(js "message", JString (js "down"))])].

Definition unavailable : Response :=
  {| status := 503; json := Return unavailable_data |}.

Definition unavailable_null : Response :=
  {| status := 503; json := Return JNull |}.

Definition connection_refused : JSError :=
  mkError (js "FetchError") (js "connect ECONNREFUSED").


(** The gateway's 400 answer as the service receives it. *)
Definition bad_request : Response :=
  {| status := 400;
     json := Return (Gateway.res_json Gateway.invalid_request_response) |}.

(** The component with a PDF uploaded and a text typed, on the text tab. *)
Definition idle : App.ProcessingState :=
  {| App.isAnalyzing := false; App.error := None; App.result := None |}.

Definition pdf_and_text : App.State :=
  {| App.activeTab := App.TEXT;
     App.videoMode := App.URL;
     App.textInput := js "typed";
     App.videoUrl := [];
     App.webUrl := [];
     App.fileData :=
       Some {| App.name := js "a.pdf"; App.type := js "application/pdf";
               App.base64 := js "data:application/pdf;base64,JVBE";
               App.rawText := None |};
     App.status := idle |}.

(** The component as it starts. *)
Definition initial : App.State :=
  {| App.activeTab := App.TEXT;
     App.videoMode := App.URL;
     App.textInput := [];
     App.videoUrl := [];
     App.webUrl := [];
     App.fileData := None;
     App.status := idle |}.

(** A file whose type the browser does not know, named like a PDF. *)
Definition untyped_pdf : App.File :=
  {| App.file_name := js "REPORT.PDF"; App.file_type := [] |}.

(** Lower case of ASCII letters, which is what [toLowerCase] does to
    them. *)
Definition ascii_lower (s : jsstring) : jsstring :=
  map (fun c => if ((65 <=? c) && (c <=? 90))%N then (c + 32)%N else c) s.

(** A reader that yields the same data URL for every file. *)
Definition fixed_reader : App.File -> App.ReadAs -> jsstring :=
  fun _ _ => js "data:application/octet-stream;base64,AAAA".

End Inputs.
Import Inputs.

(** * Theorems *)

(** ** Strings *)

Example js_ascii : js "a,{" = [97; 44; 123]%N.
Proof. reflexivity. Qed.

Example js_cjk : js "错误" = [38169; 35823]%N.
Proof. reflexivity. Qed.

Example jsq_quotes : jsq "{'a':1}" = [123; 34; 97; 34; 58; 49; 125]%N.
Proof. reflexivity. Qed.

Example decimal_429 : decimal_of_Z 429 = js "429".
Proof. reflexivity. Qed.

Lemma jsstring_eqb_eq (a b : jsstring) : JsString.eqb a b = true <-> a = b.
Proof.
  unfold JsString.eqb. destruct (list_eq_dec N.eq_dec a b); split; congruence.
Qed.

Lemma jsstring_eqb_refl (a : jsstring) : JsString.eqb a a = true.
Proof. now apply jsstring_eqb_eq. Qed.

(** ** Values *)

Section ValueFacts.

Variable engine : Engine.

Lemma truthy_not_nullish (v : JSValue) : truthy engine v = true -> nullish v = false.
Proof. destruct v; simpl; congruence. Qed.

Lemma truthy_defined (v : JSValue) : truthy engine v = true -> v <> JUndefined.
Proof. destruct v; simpl; congruence. Qed.

(** A property read throws on [null] and [undefined] only. *)
Lemma get_prop_read (v : JSValue) (key : jsstring) :
  nullish v = false -> get_prop engine v key = Return (read engine v key).
Proof.
  intros Hv. unfold read.
  destruct (get_prop engine v key) eqn:E; [reflexivity|].
  destruct v; simpl in *; try discriminate;
    repeat match type of E with
           | context [match ?x with _ => _ end] => destruct x
           | context [if ?x then _ else _] => destruct x
           end; discriminate.
Qed.

Lemma get_opt_read (v : JSValue) (key : jsstring) :
  get_opt engine v key = Return (read engine v key).
Proof.
  unfold get_opt. destruct (nullish v) eqn:E.
  - destruct v; try discriminate; reflexivity.
  - now apply get_prop_read.
Qed.

Lemma or_else_default (a d : JSValue) :
  or_else engine a (Return d) = Return (or_default engine a d).
Proof. unfold or_else, or_default. now destruct (truthy engine a). Qed.

Lemma or_default_defined (a d : JSValue) :
  d <> JUndefined -> or_default engine a d <> JUndefined.
Proof.
  intros Hd. unfold or_default. destruct (truthy engine a) eqn:E; [|exact Hd].
  now apply truthy_defined.
Qed.

Lemma empty_or_missing_falsy (v : JSValue) :
  empty_or_missing v -> truthy engine v = false.
Proof. intros [-> | ->]; reflexivity. Qed.

End ValueFacts.

(** ** The gateway handler *)

Module GatewayFacts.
Import Gateway.

Section Facts.

Variable engine : Engine.
Variable env : Env.
Variable fetch : FetchRequest -> Outcome Response.

(** [req.body.file && req.body.file.base64] never throws: the second read
    happens only when [file] is truthy. *)
Lemma file_base64_read (body : JSValue) :
  nullish body = false ->
  (file <-- get_prop engine body (js "file") ;;
   and_then engine file
     (file' <-- get_prop engine body (js "file") ;;
      get_prop engine file' (js "base64")))
  = Return (if truthy engine (read engine body (js "file"))
            then read engine (read engine body (js "file")) (js "base64")
            else read engine body (js "file")).
Proof.
  intros Hb. rewrite (get_prop_read engine body _ Hb). cbn [bindO].
  unfold and_then. destruct (truthy engine (read engine body (js "file"))) eqn:Ef.
  - cbn [bindO]. rewrite get_prop_read; [reflexivity|].
    now apply truthy_not_nullish with (engine := engine).
  - reflexivity.
Qed.

(** The validation rejects exactly the bodies that are not [accepted]. *)
Lemma is_invalid_body_accepted (body : JSValue) :
  is_invalid_body engine body = Return (negb (accepted engine body)).
Proof.
  unfold is_invalid_body, accepted.
  destruct (truthy engine body) eqn:Hb; [|reflexivity].
  pose proof (truthy_not_nullish engine body Hb) as Hn. cbn [bindO].
  rewrite (get_prop_read engine body _ Hn). cbn [bindO].
  destruct (truthy engine (read engine body (js "text"))); [reflexivity|].
  rewrite (get_prop_read engine body _ Hn). cbn [bindO].
  destruct (truthy engine (read engine body (js "image"))); [reflexivity|].
  rewrite (get_prop_read engine body _ Hn). cbn [bindO].
  unfold and_then.
  destruct (truthy engine (read engine body (js "file"))) eqn:Ef; cbn [bindO].
  - rewrite get_prop_read; [reflexivity|].
    now apply truthy_not_nullish with (engine := engine).
  - now rewrite Ef.
Qed.

Lemma handler_post (req : NextApiRequest) :
  method req = Some (js "POST") ->
  handler engine env fetch req =
    bind (lift (is_invalid_body engine (body req)))
      (fun invalid : bool =>
         if invalid then ret invalid_request_response
         else try_net (forward engine env fetch (body req))
                (fun error => ret (internal_error_response error))).
Proof.
  intros Hm. unfold handler. rewrite Hm.
  assert (E1 : strict_eq_string (optional_string (Some (js "POST"))) (js "GET") = false)
    by (vm_compute; reflexivity).
  assert (E2 : strict_eq_string (optional_string (Some (js "POST"))) (js "POST") = true)
    by (vm_compute; reflexivity).
  rewrite E1, E2. reflexivity.
Qed.

(** A body that is not accepted is answered 400 and nothing is sent. *)
Lemma handler_rejects (req : NextApiRequest) :
  method req = Some (js "POST") ->
  accepted engine (body req) = false ->
  run_net (handler engine env fetch req) = (Return invalid_request_response, []).
Proof.
  intros Hm Ha. rewrite (handler_post req Hm).
  unfold run_net, bind, lift. rewrite is_invalid_body_accepted, Ha. reflexivity.
Qed.

(** The parts built for a body that is there. *)
Lemma build_parts_read (body : JSValue) :
  nullish body = false ->
  build_parts engine body =
    Return
      (text_part (or_default engine (read engine body (js "text")) (JString (js "Hello")))
       :: (if truthy engine (read engine body (js "image"))
           then [inline_data_part (JString (js "image/jpeg")) (read engine body (js "image"))]
           else [])
       ++ (if truthy engine (read engine body (js "file"))
              && truthy engine (read engine (read engine body (js "file")) (js "base64"))
           then [inline_data_part
                   (or_default engine
                      (read engine (read engine body (js "file")) (js "mimeType"))
                      (JString (js "application/octet-stream")))
                   (read engine (read engine body (js "file")) (js "base64"))]
           else [])).
Proof.
  intros Hn. unfold build_parts.
  rewrite !(get_prop_read engine body _ Hn). cbn [bindO].
  rewrite or_else_default. cbn [bindO].
  unfold and_then.
  destruct (truthy engine (read engine body (js "file"))) eqn:Ef.
  - pose proof (truthy_not_nullish engine _ Ef) as Hf.
    rewrite !(get_prop_read engine _ _ Hf). cbn [bindO andb].
    rewrite or_else_default.
    destruct (truthy engine (read engine body (js "image")));
      destruct (truthy engine (read engine (read engine body (js "file")) (js "base64")));
      reflexivity.
  - destruct (truthy engine (read engine body (js "image"))); cbn [bindO andb];
      rewrite Ef; reflexivity.
Qed.

Lemma accepted_not_nullish (body : JSValue) :
  accepted engine body = true -> nullish body = false.
Proof.
  unfold accepted. intros H. apply andb_prop in H as [H _].
  now apply truthy_not_nullish with (engine := engine).
Qed.

(** [C3] For every accepted body the request builder returns, in this
    order: a text part holding the body's [text] when it is present and the
    placeholder [Hello] otherwise; an inline-data part for [image] with
    MIME type [image/jpeg] when an image is present; an inline-data part for
    [file.base64] with the file's [mimeType], or [application/octet-stream]
    when that is absent, when a file is present.  With both an image and a
    file, both parts follow the text part, image first. *)
Theorem request_builder_parts (body : JSValue) :
  accepted engine body = true ->
  let text := read engine body (js "text") in
  let image := read engine body (js "image") in
  let file := read engine body (js "file") in
  let base64 := read engine file (js "base64") in
  let mimeType := read engine file (js "mimeType") in
  build_parts engine body =
    Return
      (text_part (if truthy engine text then text else JString (js "Hello"))
       :: (if truthy engine image
           then [inline_data_part (JString (js "image/jpeg")) image]
           else [])
       ++ (if truthy engine file && truthy engine base64
           then [inline_data_part
                   (if truthy engine mimeType then mimeType
                    else JString (js "application/octet-stream"))
                   base64]
           else [])).
Proof.
  intros Ha. cbv zeta.
  rewrite (build_parts_read body (accepted_not_nullish body Ha)).
  reflexivity.
Qed.

(** [C6] A POST with body [{}] is answered with status 400 and error kind
    [INVALID_REQUEST], and the log of upstream calls is empty. *)
Theorem empty_object_rejected :
  run_net (handler engine env fetch {| method := Some (js "POST"); body := JObject [] |})
  = (Return invalid_request_response, [])
  /\ res_status invalid_request_response = 400%Z
  /\ read engine (res_json invalid_request_response) (js "error")
     = JString (js "INVALID_REQUEST").
Proof.
  split; [|split].
  - apply handler_rejects; reflexivity.
  - reflexivity.
  - vm_compute. reflexivity.
Qed.

(** [C10] A POST body whose [text] is the empty string (or missing), whose
    [image] is the empty string or missing, and whose [file] is missing or
    has a [base64] that is the empty string or missing, is answered with
    status 400 and error kind [INVALID_REQUEST], and nothing is sent
    upstream: an empty string counts as absent. *)
Theorem empty_strings_rejected (body : JSValue) :
  empty_or_missing (read engine body (js "text")) ->
  empty_or_missing (read engine body (js "image")) ->
  read engine body (js "file") = JUndefined
  \/ empty_or_missing (read engine (read engine body (js "file")) (js "base64")) ->
  run_net (handler engine env fetch {| method := Some (js "POST"); body := body |})
  = (Return invalid_request_response, [])
  /\ res_status invalid_request_response = 400%Z
  /\ read engine (res_json invalid_request_response) (js "error")
     = JString (js "INVALID_REQUEST").
Proof.
  intros Ht Hi Hf. split; [|split].
  - apply handler_rejects; [reflexivity|].
    cbn [Gateway.body]. unfold accepted.
    rewrite (@empty_or_missing_falsy engine _ Ht), (@empty_or_missing_falsy engine _ Hi).
    destruct Hf as [Hf | Hf].
    + rewrite Hf. cbn [truthy orb andb]. apply andb_false_r.
    + rewrite (@empty_or_missing_falsy engine _ Hf).
      rewrite andb_false_r. apply andb_false_r.
  - reflexivity.
  - vm_compute. reflexivity.
Qed.

Lemma upstream_url_returns :
  upstream_url engine env
  = Return (API_URL ++ js "?key="
              ++ match GOOGLE_API_KEY env with
                 | Some key => key
                 | None => js "undefined"
                 end).
Proof. unfold upstream_url. now destruct (GOOGLE_API_KEY env). Qed.

(** What the [try] block does once the request is built, the agent is
    there and the call has been answered. *)
Lemma forward_answered (body : JSValue) (out : Outcome ApiResponse)
  (r : FetchRequest) (response : Response) :
  nullish body = false ->
  forward engine env fetch body [] = (out, [r]) ->
  fetch r = Return response ->
  out = (data <-- json response ;; classify engine response data).
Proof.
  intros Hn Hrun Hf. unfold forward, bind, lift, await_fetch in Hrun.
  rewrite (build_parts_read body Hn), upstream_url_returns in Hrun.
  destruct (proxy_agent env) as [agent | e]; [|discriminate].
  cbn [app] in Hrun.
  match type of Hrun with
  | context [fetch ?q] => remember q as q' eqn:Eq
  end.
  destruct (fetch q') as [resp | e] eqn:Efetch.
  - destruct (json resp) as [data | e] eqn:Ej.
    + injection Hrun as Hout Hlog. subst r. rewrite Efetch in Hf.
      injection Hf as <-. rewrite Ej. cbn [bindO]. now symmetry.
    + injection Hrun as Hout Hlog. subst r. rewrite Efetch in Hf.
      injection Hf as <-. rewrite Ej. cbn [bindO]. now symmetry.
  - injection Hrun as Hout Hlog. subst r. congruence.
Qed.

(** [C2], amended.  For an accepted POST whose one upstream call was
    answered with a 2xx status and a body that [response.json()] reads as
    the JSON value [data], the handler answers with status 200 and [data]
    itself, not wrapped and not changed. *)
Theorem upstream_success_passthrough (req : NextApiRequest)
  (out : Outcome ApiResponse) (r : FetchRequest) (response : Response)
  (data : JSValue) :
  method req = Some (js "POST") ->
  accepted engine (body req) = true ->
  run_net (handler engine env fetch req) = (out, [r]) ->
  fetch r = Return response ->
  ok response = true ->
  json response = Return data ->
  out = Return {| res_status := 200; res_json := data |}.
Proof.
  intros Hm Ha Hrun Hf Hok Hj.
  rewrite (handler_post req Hm) in Hrun.
  unfold run_net, bind, lift in Hrun.
  rewrite is_invalid_body_accepted, Ha in Hrun. cbn [negb] in Hrun.
  unfold try_net in Hrun.
  destruct (forward engine env fetch (body req) []) as [[res | e] log] eqn:Efw.
  - injection Hrun as <- ->.
    rewrite (forward_answered (body req) _ r response (accepted_not_nullish _ Ha) Efw Hf).
    rewrite Hj. cbn [bindO]. unfold classify. now rewrite Hok.
  - unfold ret in Hrun. injection Hrun as <- ->.
    pose proof (forward_answered (body req) _ r response (accepted_not_nullish _ Ha) Efw Hf)
      as Hfa.
    rewrite Hj in Hfa. cbn [bindO] in Hfa.
    unfold classify in Hfa. rewrite Hok in Hfa. discriminate.
Qed.

(** A 2xx answer whose body cannot be read as JSON ends in the [catch]
    block. *)
Lemma unreadable_success_is_internal_error (req : NextApiRequest)
  (out : Outcome ApiResponse) (r : FetchRequest) (response : Response)
  (e : JSError) :
  method req = Some (js "POST") ->
  accepted engine (body req) = true ->
  run_net (handler engine env fetch req) = (out, [r]) ->
  fetch r = Return response ->
  json response = Throw e ->
  out = Return (internal_error_response e).
Proof.
  intros Hm Ha Hrun Hf Hj.
  rewrite (handler_post req Hm) in Hrun.
  unfold run_net, bind, lift in Hrun.
  rewrite is_invalid_body_accepted, Ha in Hrun. cbn [negb] in Hrun.
  unfold try_net in Hrun.
  destruct (forward engine env fetch (body req) []) as [[res | e'] log] eqn:Efw.
  - injection Hrun as <- ->.
    pose proof (forward_answered (body req) _ r response (accepted_not_nullish _ Ha) Efw Hf) as Hfa.
    rewrite Hj in Hfa. discriminate.
  - unfold ret in Hrun. injection Hrun as <- ->.
    pose proof (forward_answered (body req) _ r response (accepted_not_nullish _ Ha) Efw Hf) as Hfa.
    rewrite Hj in Hfa. cbn [bindO] in Hfa. now injection Hfa as ->.
Qed.

(** The handler always answers: no exception escapes it. *)
Lemma handler_never_throws (req : NextApiRequest) :
  exists res : ApiResponse, fst (run_net (handler engine env fetch req)) = Return res.
Proof.
  unfold handler.
  destruct (strict_eq_string (optional_string (method req)) (js "GET")); [now eexists|].
  destruct (strict_eq_string (optional_string (method req)) (js "POST")); cbn [negb].
  - unfold run_net, bind, lift. rewrite is_invalid_body_accepted.
    destruct (accepted engine (body req)); cbn [negb]; [|now eexists].
    unfold try_net.
    destruct (forward engine env fetch (body req) []) as [[res | e] log]; now eexists.
  - unfold run_net, bind, lift. destruct (method req); now eexists.
Qed.

(** A GET is answered with the liveness envelope and nothing is sent. *)
Lemma get_is_liveness (b : JSValue) :
  run_net (handler engine env fetch {| method := Some (js "GET"); body := b |})
  = (Return liveness_response, []).
Proof. reflexivity. Qed.

(** An answer of [classify] with status 429 is the rate-limit envelope. *)
Lemma classify_429 (response : Response) (data : JSValue) (res : ApiResponse) :
  classify engine response data = Return res ->
  res_status res = 429%Z ->
  res = rate_limit_response data.
Proof.
  unfold classify. destruct (negb (ok response)).
  - destruct (status response =? 429)%Z eqn:Es.
    + now intros [= <-].
    + destruct (upstream_message engine response data) as [m | e]; cbn [bindO];
        [|discriminate].
      intros [= <-]. cbn [res_status upstream_error_response]. intros H.
      apply Z.eqb_neq in Es. contradiction.
  - intros [= <-]. discriminate.
Qed.

(** Whatever the request, the environment and the upstream do, an answer
    of the handler with status 429 is the rate-limit envelope: a JSON object
    with [error], [message] and [raw]. *)
Lemma handler_429_is_envelope (req : NextApiRequest) (res : ApiResponse) :
  fst (run_net (handler engine env fetch req)) = Return res ->
  res_status res = 429%Z ->
  exists data : JSValue, res = rate_limit_response data.
Proof.
  unfold handler.
  destruct (strict_eq_string (optional_string (method req)) (js "GET")).
  { intros [= <-]. discriminate. }
  destruct (strict_eq_string (optional_string (method req)) (js "POST")); cbn [negb].
  - unfold run_net, bind, lift. rewrite is_invalid_body_accepted.
    destruct (accepted engine (body req)); cbn [negb].
    + unfold try_net, forward, bind, lift, await_fetch.
      destruct (build_parts engine (body req)) as [parts | e];
        [|intros [= <-]; discriminate].
      destruct (proxy_agent env) as [agent | e]; [|intros [= <-]; discriminate].
      destruct (upstream_url engine env) as [target | e]; [|intros [= <-]; discriminate].
      destruct (fetch _) as [response | e]; [|intros [= <-]; discriminate].
      destruct (json response) as [data | e]; [|intros [= <-]; discriminate].
      destruct (classify engine response data) as [res' | e] eqn:Ec;
        [|intros [= <-]; discriminate].
      cbn [fst]. intros [= <-] Hs. exists data. now apply classify_429 with (1 := Ec).
    + intros [= <-]. discriminate.
  - unfold run_net, bind, lift.
    destruct (ToString engine (optional_string (method req))); cbn [fst];
      [intros [= <-]|]; discriminate.
Qed.

End Facts.

End GatewayFacts.

(** ** The service *)

Module ServiceFacts.
Import GeminiService.

Section Facts.

Variable engine : Engine.
Variable fetch : FetchRequest -> Outcome Response.

(** One call is made, and whatever happens a result comes back: the
    normalised response, or the result built in the [catch] block. *)
Lemma requestBackend_run (payload : JSValue) :
  run_net (requestBackend engine fetch payload)
  = (Return match fetch (gateway_request payload) with
            | Return response =>
                match normalize engine response with
                | Return r => r
                | Throw error => caught_result error
                end
            | Throw error => caught_result error
            end,
     [gateway_request payload]).
Proof.
  unfold run_net, requestBackend, try_net, bind, await_fetch, lift, ret.
  cbn [app]. destruct (fetch (gateway_request payload)) as [response | error].
  - now destruct (normalize engine response).
  - reflexivity.
Qed.



Lemma read_defined_not_nullish (v : JSValue) (key : jsstring) :
  read engine v key <> JUndefined -> nullish v = false.
Proof. destruct v; try reflexivity; intros H; now elim H. Qed.

Lemma rate_limit_result_read (data : JSValue) :
  nullish data = false ->
  rate_limit_result engine data
  = Return (quota_result
              (or_default engine (read engine data (js "message")) default_limit_message)).
Proof.
  intros Hn. unfold rate_limit_result.
  rewrite (get_prop_read engine data _ Hn). cbn [bindO].
  unfold default_limit_message. rewrite or_else_default. reflexivity.
Qed.

Lemma requestBackend_429 (payload : JSValue) (response : Response) (data : JSValue) :
  fetch (gateway_request payload) = Return response ->
  status response = 429%Z ->
  json response = Return data ->
  nullish data = false ->
  fst (run_net (requestBackend engine fetch payload))
  = Return (quota_result
              (or_default engine (read engine data (js "message")) default_limit_message)).
Proof.
  intros Hf Hs Hj Hn.
  rewrite requestBackend_run, Hf. cbn [fst].
  unfold normalize. rewrite Hj. cbn [bindO].
  unfold ok, error_result. rewrite Hs. cbn [Z.eqb Z.leb Z.compare Pos.compare
    Pos.compare_cont Pos.eqb andb negb bindO].
  now rewrite (rate_limit_result_read data Hn).
Qed.

(** [C4] A gateway response with status 429, whose body is a JSON envelope
    [data], is normalised to the result whose [summary] is exactly
    [错误: API 额度超限] and whose [keyPoints] has one element: the
    envelope's [message], or the default message when there is none. *)
Theorem status_429_normalized (payload : JSValue) (response : Response)
  (data : JSValue) :
  fetch (gateway_request payload) = Return response ->
  status response = 429%Z ->
  json response = Return data ->
  nullish data = false ->
  fst (run_net (requestBackend engine fetch payload))
  = Return (quota_result
              (if truthy engine (read engine data (js "message"))
               then read engine data (js "message")
               else default_limit_message))
  /\ summary (quota_result
                (if truthy engine (read engine data (js "message"))
                 then read engine data (js "message")
                 else default_limit_message))
     = JString (js "错误: API 额度超限").
Proof.
  intros Hf Hs Hj Hn. split; [|reflexivity].
  exact (requestBackend_429 payload response data Hf Hs Hj Hn).
Qed.

(** [C9] A gateway response that is not ok and whose body has [error] equal
    to [RATE_LIMIT] is normalised to the quota-exhausted result, whatever
    its status. *)
Theorem error_kind_rate_limit_normalized (payload : JSValue) (response : Response)
  (data : JSValue) :
  fetch (gateway_request payload) = Return response ->
  ok response = false ->
  json response = Return data ->
  read engine data (js "error") = JString (js "RATE_LIMIT") ->
  fst (run_net (requestBackend engine fetch payload))
  = Return (quota_result
              (if truthy engine (read engine data (js "message"))
               then read engine data (js "message")
               else default_limit_message))
  /\ summary (quota_result
                (if truthy engine (read engine data (js "message"))
                 then read engine data (js "message")
                 else default_limit_message))
     = JString (js "错误: API 额度超限").
Proof.
  intros Hf Hok Hj He. split; [|reflexivity].
  assert (Hn : nullish data = false).
  { apply read_defined_not_nullish with (key := js "error"). now rewrite He. }
  rewrite requestBackend_run, Hf. cbn [fst].
  unfold normalize. rewrite Hj, Hok. cbn [bindO negb].
  unfold error_result.
  rewrite (get_prop_read engine data _ Hn), He.
  assert (E : strict_eq_string (JString (js "RATE_LIMIT")) (js "RATE_LIMIT") = true)
    by (vm_compute; reflexivity).
  destruct (status response =? 429)%Z; cbn [bindO]; rewrite ?E;
    now rewrite (rate_limit_result_read data Hn).
Qed.

(** *** Every path fills the three required fields *)

Ltac populated := repeat split; cbn; try discriminate.

Lemma rate_limit_result_populated (data : JSValue) (r : AnalysisResult) :
  rate_limit_result engine data = Return r -> fully_populated r.
Proof.
  unfold rate_limit_result.
  destruct (get_prop engine data (js "message")) as [m | e]; cbn [bindO]; [|discriminate].
  rewrite or_else_default. cbn [bindO]. intros [= <-]. populated.
Qed.

Lemma other_error_result_populated (response : Response) (data : JSValue)
  (r : AnalysisResult) :
  other_error_result engine response data = Return r -> fully_populated r.
Proof.
  unfold other_error_result.
  destruct (get_prop engine data (js "error")) as [e0 | e]; cbn [bindO]; [|discriminate].
  destruct (get_opt engine e0 (js "message")) as [em | e]; cbn [bindO]; [|discriminate].
  destruct (or_else engine em _) as [msg | e]; cbn [bindO]; [|discriminate].
  destruct (ToString engine msg) as [shown | e]; cbn [bindO]; [|discriminate].
  intros [= <-]. populated.
Qed.

Lemma error_result_populated (response : Response) (data : JSValue)
  (r : AnalysisResult) :
  error_result engine response data = Return r -> fully_populated r.
Proof.
  unfold error_result.
  destruct (if (status response =? 429)%Z then _ else _) as [[|] | e]; cbn [bindO].
  - apply rate_limit_result_populated.
  - apply other_error_result_populated.
  - discriminate.
Qed.

Lemma structured_result_populated (parsed aiResponse : JSValue) (r : AnalysisResult) :
  structured_result engine parsed aiResponse = Return r -> fully_populated r.
Proof.
  unfold structured_result.
  destruct (get_prop engine parsed (js "summary")) as [s0 | e]; cbn [bindO]; [|discriminate].
  rewrite or_else_default. cbn [bindO].
  destruct (get_prop engine parsed (js "keyPoints")) as [k0 | e]; cbn [bindO]; [|discriminate].
  rewrite or_else_default. cbn [bindO].
  destruct (get_prop engine parsed (js "conclusion")) as [c0 | e]; cbn [bindO]; [|discriminate].
  rewrite or_else_default. cbn [bindO].
  destruct (get_prop engine parsed (js "detailedAnalysis")) as [d0 | e]; cbn [bindO];
    [|discriminate].
  rewrite or_else_default. cbn [bindO]. intros [= <-].
  repeat split; cbn [summary keyPoints conclusion]; apply or_default_defined; discriminate.
Qed.

Lemma try_structured_populated (aiResponse : JSValue) (r : AnalysisResult) :
  try_structured engine aiResponse = Return (Some r) -> fully_populated r.
Proof.
  unfold try_structured, try_catch.
  destruct (call_includes engine aiResponse) as [[|] | e]; cbn [bindO]; try discriminate.
  destruct (call_replace_trim engine aiResponse) as [text | e]; cbn [bindO]; [|discriminate].
  destruct (JSON_parse engine text) as [parsed | e]; cbn [bindO]; [|discriminate].
  destruct (structured_result engine parsed aiResponse) as [r' | e] eqn:Es; cbn [bindO];
    [|discriminate].
  intros [= <-]. now apply structured_result_populated with (1 := Es).
Qed.

Lemma plain_result_populated (aiResponse : JSValue) (r : AnalysisResult) :
  plain_result engine aiResponse = Return r -> fully_populated r.
Proof.
  unfold plain_result.
  destruct (call_substring engine aiResponse) as [head | e]; cbn [bindO]; [|discriminate].
  intros [= <-]. populated.
Qed.

Lemma normalize_populated (response : Response) (r : AnalysisResult) :
  normalize engine response = Return r -> fully_populated r.
Proof.
  unfold normalize.
  destruct (json response) as [data | e]; cbn [bindO]; [|discriminate].
  destruct (negb (ok response)); [apply error_result_populated|].
  destruct (extract_text engine data) as [ai | e]; cbn [bindO]; [|discriminate].
  destruct (try_structured engine ai) as [[r' | ] | e] eqn:Et; cbn [bindO].
  - intros [= <-]. now apply try_structured_populated with (1 := Et).
  - apply plain_result_populated.
  - discriminate.
Qed.

Lemma caught_result_populated (error : JSError) : fully_populated (caught_result error).
Proof. populated. Qed.

Lemma requestBackend_populated (payload : JSValue) :
  resolves_populated (requestBackend engine fetch payload).
Proof.
  unfold resolves_populated. rewrite requestBackend_run. cbn [fst].
  eexists. split; [reflexivity|].
  destruct (fetch (gateway_request payload)) as [response | error].
  - destruct (normalize engine response) as [r | error] eqn:En.
    + now apply normalize_populated with (1 := En).
    + apply caught_result_populated.
  - apply caught_result_populated.
Qed.


(** *** [split(',')] and the data-URL prefix *)

Lemma split_comma_no_comma (s : jsstring) :
  ~ In cu_comma s -> split_comma s = [s].
Proof.
  induction s as [|c r IH]; intros Hs; [reflexivity|].
  cbn [split_comma]. destruct (N.eqb_spec c cu_comma) as [-> | Hc].
  - elim Hs. now left.
  - rewrite IH; [reflexivity|]. intros Hin. apply Hs. now right.
Qed.

Lemma split_comma_prefix (prefix rest : jsstring) :
  ~ In cu_comma prefix ->
  split_comma (prefix ++ cu_comma :: rest) = prefix :: split_comma rest.
Proof.
  induction prefix as [|c r IH]; intros Hp.
  - cbn [app split_comma]. now rewrite N.eqb_refl.
  - cbn [app split_comma]. destruct (N.eqb_spec c cu_comma) as [-> | Hc].
    + elim Hp. now left.
    + rewrite IH; [reflexivity|]. intros Hin. apply Hp. now right.
Qed.


Lemma strip_data_url_bare (data : jsstring) :
  ~ In cu_comma data -> strip_data_url data = data.
Proof.
  intros Hd. unfold strip_data_url. now rewrite (split_comma_no_comma data Hd).
Qed.


(** *** Structured text and text with words around it *)

Lemma success_normalized (response : Response) (data : JSValue) (text : jsstring) :
  ok response = true ->
  json response = Return data ->
  extract_text engine data = Return (JString text) ->
  normalize engine response
  = (r <-- try_structured engine (JString text) ;;
     match r with
     | Some result => Return result
     | None => plain_result engine (JString text)
     end).
Proof.
  intros Hok Hj Hx. unfold normalize. rewrite Hj. cbn [bindO].
  rewrite Hok. cbn [negb]. now rewrite Hx.
Qed.

(** [C1], amended.  For a gateway success envelope whose extracted text is
    exactly the JSON text [{"summary":"S","keyPoints":["a"],"conclusion":"C"}]
    the normaliser returns [summary] S, [keyPoints] [a], [conclusion] C and,
    for the missing [detailedAnalysis], the text itself.  With the words
    [Result: ] in front of the same JSON, [JSON.parse] rejects the text and
    the normaliser returns the plain-text presentation instead. *)
Theorem structured_text_normalized (payload : JSValue) (response : Response)
  (data : JSValue) :
  fetch (gateway_request payload) = Return response ->
  ok response = true ->
  json response = Return data ->
  (extract_text engine data = Return (JString bare_json_text) ->
   fst (run_net (requestBackend engine fetch payload))
   = Return {| summary := JString (js "S");
               keyPoints := JArray [JString (js "a")];
               conclusion := JString (js "C");
               detailedAnalysis := JString bare_json_text |})
  /\ (extract_text engine data = Return (JString prefixed_json_text) ->
      fst (run_net (requestBackend engine fetch payload))
      = Return (plain_text_result prefixed_json_text)).
Proof.
  intros Hf Hok Hj. split; intros Hx;
    rewrite requestBackend_run, Hf; cbn [fst];
    rewrite (success_normalized response data _ Hok Hj Hx);
    vm_compute; reflexivity.
Qed.

(** [X19] An ok answer whose text has no brace, or has one but is
    rejected by [JSON.parse] once fences are removed and the ends trimmed,
    is shown as plain text: the first 100 code units and an ellipsis as
    [summary], the whole text as the one key point. *)
Lemma unparsable_text_is_plain (payload : JSValue) (response : Response)
  (data : JSValue) (text : jsstring) :
  fetch (gateway_request payload) = Return response ->
  ok response = true ->
  json response = Return data ->
  extract_text engine data = Return (JString text) ->
  includes_lbrace text = false \/ JSON.parse (trim (replace_fences text)) = None ->
  fst (run_net (requestBackend engine fetch payload))
  = Return (plain_text_result text).
Proof.
  intros Hf Hok Hj Hx Hp.
  rewrite requestBackend_run, Hf; cbn [fst].
  rewrite (success_normalized response data _ Hok Hj Hx).
  unfold try_structured, call_includes, call_replace_trim, JSON_parse.
  destruct (includes_lbrace text) eqn:Ei; cbn [bindO try_catch].
  - destruct Hp as [Hp | Hp]; [discriminate|]. now rewrite Hp.
  - reflexivity.
Qed.

(** [X20] An ok answer whose text parses to a JSON object gives a result
    read from that object field by field; a field that is missing or falsy
    (an empty string, [null], [false]) takes its default, and the default
    of [detailedAnalysis] is the text as received, fences included. *)
Lemma parsed_text_is_structured (payload : JSValue) (response : Response)
  (data : JSValue) (text : jsstring) (fields : list (jsstring * JSValue)) :
  fetch (gateway_request payload) = Return response ->
  ok response = true ->
  json response = Return data ->
  extract_text engine data = Return (JString text) ->
  includes_lbrace text = true ->
  JSON.parse (trim (replace_fences text)) = Some (JObject fields) ->
  fst (run_net (requestBackend engine fetch payload))
  = Return
      {| summary :=
           or_default engine (read engine (JObject fields) (js "summary"))
             (JString (js "分析完成"));
         keyPoints :=
           or_default engine (read engine (JObject fields) (js "keyPoints")) (JArray []);
         conclusion :=
           or_default engine (read engine (JObject fields) (js "conclusion")) (JString []);
         detailedAnalysis :=
           or_default engine (read engine (JObject fields) (js "detailedAnalysis"))
             (JString text) |}.
Proof.
  intros Hf Hok Hj Hx Hi Hp.
  rewrite requestBackend_run, Hf; cbn [fst].
  rewrite (success_normalized response data _ Hok Hj Hx).
  unfold try_structured, call_includes, call_replace_trim, JSON_parse.
  rewrite Hi. cbn [bindO]. rewrite Hp. cbn [bindO].
  unfold structured_result.
  rewrite !(get_prop_read engine (JObject fields) _ eq_refl). cbn [bindO].
  rewrite !or_else_default. reflexivity.
Qed.

End Facts.

End ServiceFacts.

(** ** The gateway and the service together *)

(** Every answer of the handler with status 429, read by the service, is
    normalised to the quota result with the handler's message as the one
    key point. *)
Lemma gateway_429_normalized (engine : Engine) (env : Gateway.Env)
  (upstream : FetchRequest -> Outcome Response) (req : Gateway.NextApiRequest)
  (res : Gateway.ApiResponse) (payload : JSValue) :
  fst (run_net (Gateway.handler engine env upstream req)) = Return res ->
  Gateway.res_status res = 429%Z ->
  fst (run_net (GeminiService.requestBackend engine
                  (always {| status := Gateway.res_status res;
                             json := Return (Gateway.res_json res) |})
                  payload))
  = Return (quota_result
              (JString (js "Google Gemini API 调用额度已超限，请稍后重试或检查配额设置。"))).
Proof.
  intros Hrun Hs.
  destruct (GatewayFacts.handler_429_is_envelope engine env upstream req res Hrun Hs)
    as [data ->].
  cbn [Gateway.res_status Gateway.res_json Gateway.rate_limit_response].
  match goal with
  | |- context [always ?R] =>
      rewrite (ServiceFacts.requestBackend_429 engine (always R) payload R
                 (Gateway.res_json (Gateway.rate_limit_response data))
                 eq_refl eq_refl eq_refl eq_refl)
  end.
  vm_compute. reflexivity.
Qed.

(** ** Concrete runs *)

(** A body with text, image and file together satisfies the hypothesis of
    the theorem on the request builder. *)
Lemma request_builder_parts_witness :
  let body :=
    JObject [(js "text", JString (js "hi"));
             (js "image", JString (js "AAAA"));
             (js "file", JObject [(js "base64", JString (js "BBBB"))])] in
  accepted sample_engine body = true
  /\ Gateway.build_parts sample_engine body
     = Return
         [Gateway.text_part (JString (js "hi"));
          Gateway.inline_data_part (JString (js "image/jpeg")) (JString (js "AAAA"));
          Gateway.inline_data_part (JString (js "application/octet-stream"))
            (JString (js "BBBB"))].
Proof.
  cbv zeta. split; [reflexivity|].
  exact (GatewayFacts.request_builder_parts sample_engine
           (JObject [(js "text", JString (js "hi"));
                     (js "image", JString (js "AAAA"));
                     (js "file", JObject [(js "base64", JString (js "BBBB"))])])
           eq_refl).
Defined.

(** A body with empty [text], [image] and [file.base64] is rejected. *)
Lemma empty_strings_rejected_witness :
  run_net (Gateway.handler sample_engine sample_env (always ok_with_answer)
             {| Gateway.method := Some (js "POST"); Gateway.body := all_empty_body |})
  = (Return Gateway.invalid_request_response, []).
Proof.
  exact (proj1 (GatewayFacts.empty_strings_rejected sample_engine sample_env
                  (always ok_with_answer) all_empty_body
                  (or_intror eq_refl) (or_intror eq_refl)
                  (or_intror (or_intror eq_refl)))).
Defined.

(** An upstream answer of status 200 with a JSON body is passed on. *)
Lemma upstream_success_passthrough_witness :
  fst (run_net (Gateway.handler sample_engine sample_env (always ok_with_answer) post_hi))
  = Return {| Gateway.res_status := 200;
              Gateway.res_json := candidates_body (js "plain answer") |}.
Proof.
  apply (GatewayFacts.upstream_success_passthrough sample_engine sample_env
           (always ok_with_answer) post_hi _ upstream_request_hi
           ok_with_answer (candidates_body (js "plain answer"))).
  - reflexivity.
  - reflexivity.
  - vm_compute. reflexivity.
  - reflexivity.
  - reflexivity.
  - reflexivity.
Defined.

(** [C2] as stated fails: the upstream answers an accepted POST with status
    200, the body is not JSON, and the handler answers 500
    [INTERNAL_ERROR] instead of passing the body on under 200. *)
Lemma unparsable_success_not_passed_through :
  accepted sample_engine (Gateway.body post_hi) = true
  /\ ok ok_but_not_json = true
  /\ run_net (Gateway.handler sample_engine sample_env (always ok_but_not_json) post_hi)
     = (Return (Gateway.internal_error_response not_json_error), [upstream_request_hi])
  /\ Gateway.res_status (Gateway.internal_error_response not_json_error) = 500%Z.
Proof.
  split; [reflexivity|]. split; [reflexivity|]. split; [|reflexivity].
  vm_compute. reflexivity.
Qed.

(** The gateway's own 429 envelope is normalised to the quota result; the
    one key point is the gateway's message. *)
Lemma status_429_normalized_witness :
  fst (run_net (GeminiService.requestBackend sample_engine (always gateway_429) text_payload))
  = Return (quota_result
              (JString (js "Google Gemini API 调用额度已超限，请稍后重试或检查配额设置。"))).
Proof.
  exact (proj1 (ServiceFacts.status_429_normalized sample_engine (always gateway_429)
                  text_payload gateway_429
                  (Gateway.res_json (Gateway.rate_limit_response JNull))
                  eq_refl eq_refl eq_refl eq_refl)).
Defined.

(** Status 503 with error kind [RATE_LIMIT] and no message is normalised
    to the quota result with the default message. *)
Lemma error_kind_rate_limit_normalized_witness :
  ok rate_limit_503 = false
  /\ fst (run_net (GeminiService.requestBackend sample_engine (always rate_limit_503)
                     text_payload))
     = Return (quota_result default_limit_message).
Proof.
  split; [reflexivity|].
  exact (proj1 (ServiceFacts.error_kind_rate_limit_normalized sample_engine
                  (always rate_limit_503) text_payload rate_limit_503
                  (JObject [(js "error", JString (js "RATE_LIMIT"))])
                  eq_refl eq_refl eq_refl eq_refl)).
Defined.


(** The bare JSON text is read field by field. *)
Lemma structured_text_normalized_witness :
  fst (run_net (GeminiService.requestBackend sample_engine
                  (always (success_with bare_json_text)) text_payload))
  = Return {| summary := JString (js "S");
              keyPoints := JArray [JString (js "a")];
              conclusion := JString (js "C");
              detailedAnalysis := JString bare_json_text |}.
Proof.
  exact (proj1 (ServiceFacts.structured_text_normalized sample_engine
                  (always (success_with bare_json_text)) text_payload
                  (success_with bare_json_text) (candidates_body bare_json_text)
                  eq_refl eq_refl eq_refl) eq_refl).
Defined.

(** [C1] as stated fails: for the text that starts with [Result: ] the
    result is the plain-text presentation, whose [summary] is the text
    followed by an ellipsis, not S. *)
Lemma prefixed_json_not_parsed :
  JSON.parse prefixed_json_text = None
  /\ fst (run_net (GeminiService.requestBackend sample_engine
                     (always (success_with prefixed_json_text)) text_payload))
     = Return (plain_text_result prefixed_json_text)
  /\ plain_text_result prefixed_json_text
     <> {| summary := JString (js "S");
           keyPoints := JArray [JString (js "a")];
           conclusion := JString (js "C");
           detailedAnalysis := JString prefixed_json_text |}.
Proof.
  split; [vm_compute; reflexivity|]. split; [vm_compute; reflexivity|].
  vm_compute. discriminate.
Qed.

(** ** Further evaluations *)

Example parse_nested :
  JSON.parse (jsq " { 'a' : [1, -2.5e+3, true, false, null, {}, []], 'b' : 'x' } ")
  = Some (JObject
            [(js "a",
              JArray [JNumber (js "1"); JNumber (js "-2.5e+3"); JBool true; JBool false;
                      JNull; JObject []; JArray []]);
             (js "b", JString (js "x"))]).
Proof. vm_compute. reflexivity. Qed.

Example parse_escapes :
  JSON.parse (jsq "'tab\tslash\/u\u00e9'")
  = Some (JString (js "tab" ++ [9%N] ++ js "slash/u" ++ [233%N])).
Proof. vm_compute. reflexivity. Qed.

Example parse_duplicate_key :
  JSON.parse (jsq "{'k':1,'j':2,'k':3}")
  = Some (JObject [(js "k", JNumber (js "3")); (js "j", JNumber (js "2"))]).
Proof. vm_compute. reflexivity. Qed.

Example parse_rejects :
  map JSON.parse
    [js ""; js "[1,]"; jsq "{'a':1,}"; js "01"; js "1."; js "-"; js "tru"; js "[1 2]";
     jsq "{'a' 1}"; jsq "'open"; js "{} {}"; js "[[]"; js "nul"; jsq "{1:2}"]
  = repeat None 14.
Proof. vm_compute. reflexivity. Qed.

Example fences_removed :
  trim (replace_fences (js "```json {} ``` ")) = js "{}".
Proof. vm_compute. reflexivity. Qed.

Example fenced_json_is_structured :
  fst (run_net (GeminiService.requestBackend sample_engine
                  (always (success_with (js "```json" ++ [10%N] ++ bare_json_text
                                           ++ [10%N] ++ js "```")))
                  text_payload))
  = Return {| summary := JString (js "S");
              keyPoints := JArray [JString (js "a")];
              conclusion := JString (js "C");
              detailedAnalysis :=
                JString (js "```json" ++ [10%N] ++ bare_json_text ++ [10%N] ++ js "```") |}.
Proof. vm_compute. reflexivity. Qed.

Example plain_answer :
  fst (run_net (GeminiService.requestBackend sample_engine (always ok_with_answer)
                  text_payload))
  = Return {| summary := JString (js "plain answer...");
              keyPoints := JArray [JString (js "plain answer")];
              conclusion := JString (js "解析完成");
              detailedAnalysis := JString (js "plain answer") |}.
Proof. vm_compute. reflexivity. Qed.

(** The service's catch block after a network failure. *)
Example network_failure :
  fst (run_net (GeminiService.requestBackend sample_engine
                  (fun _ => Throw (mkError (js "TypeError") (js "Failed to fetch")))
                  text_payload))
  = Return {| summary := JString (js "错误: Failed to fetch");
              keyPoints := JArray [];
              conclusion := JString (js "请求失败");
              detailedAnalysis := JString (js "Failed to fetch") |}.
Proof. vm_compute. reflexivity. Qed.

(** A [text] that is not a string ends in the catch block. *)
Example text_not_a_string :
  fst (run_net (GeminiService.requestBackend sample_engine
                  (always {| status := 200;
                             json := Return
                               (JObject
                                  [(js "candidates",
                                    JArray [JObject
                                      [(js "content",
                                        JObject [(js "parts",
                                          JArray [JObject [(js "text", JBool true)]])])]])]) |})
                  text_payload))
  = Return {| summary := JString (js "错误: aiResponse.substring is not a function");
              keyPoints := JArray [];
              conclusion := JString (js "请求失败");
              detailedAnalysis := JString (js "aiResponse.substring is not a function") |}.
Proof. vm_compute. reflexivity. Qed.

(** The gateway's answer to an upstream 503 mirrors the status. *)
Example upstream_503 :
  fst (run_net (Gateway.handler sample_engine sample_env
                  (always {| status := 503;
                             json := Return
                               (JObject [(js "error",
                                          JObject [(js "message", JString (js "down"))])]) |})
                  post_hi))
  = Return (Gateway.upstream_error_response 503 (JString (js "down"))
              (JObject [(js "error", JObject [(js "message", JString (js "down"))])])).
Proof. vm_compute. reflexivity. Qed.

(** * Further properties of the gateway *)

Module GatewayMore.
Import Gateway.

Section Facts.

Variable engine : Engine.
Variable env : Env.
Variable fetch : FetchRequest -> Outcome Response.

Lemma build_parts_of (body : JSValue) :
  nullish body = false ->
  build_parts engine body = Return (parts_of engine body).
Proof.
  intros Hn. unfold parts_of.
  now rewrite (GatewayFacts.build_parts_read engine body Hn).
Qed.

(** The whole run of the handler on an accepted POST. *)
Lemma handler_accepted_run (req : NextApiRequest) :
  method req = Some (js "POST") ->
  accepted engine (body req) = true ->
  run_net (handler engine env fetch req)
  = match proxy_agent env with
    | Return agent =>
        (Return (answer_of engine (fetch (request_for engine env (body req) agent))),
         [request_for engine env (body req) agent])
    | Throw error => (Return (internal_error_response error), [])
    end.
Proof.
  intros Hm Ha.
  pose proof (GatewayFacts.accepted_not_nullish engine (body req) Ha) as Hn.
  rewrite (GatewayFacts.handler_post engine env fetch req Hm).
  unfold run_net, bind, lift.
  rewrite GatewayFacts.is_invalid_body_accepted, Ha. cbn [negb].
  unfold try_net, forward, bind, lift, await_fetch.
  rewrite (build_parts_of (body req) Hn), GatewayFacts.upstream_url_returns.
  destruct (proxy_agent env) as [agent | error]; [|reflexivity].
  cbn [app]. unfold request_for, key_text, answer_of.
  destruct (fetch _) as [response | error]; cbn [bindO]; [|reflexivity].
  destruct (json response) as [data | error]; cbn [bindO]; [|reflexivity].
  now destruct (classify engine response data).
Qed.

Lemma handler_method_run (req : NextApiRequest) :
  strict_eq_string (optional_string (method req)) (js "GET") = false ->
  strict_eq_string (optional_string (method req)) (js "POST") = false ->
  run_net (handler engine env fetch req)
  = (Return (method_not_allowed_response
               (match method req with
                | Some m => m
                | None => js "undefined"
                end)), []).
Proof.
  intros Hg Hp. unfold handler. rewrite Hg, Hp. cbn [negb].
  unfold run_net, bind, lift, ret. now destruct (method req).
Qed.

Lemma method_is_post (req : NextApiRequest) :
  strict_eq_string (optional_string (method req)) (js "POST") = true ->
  method req = Some (js "POST").
Proof.
  destruct (method req) as [m |]; cbn; [|discriminate].
  intros H. apply jsstring_eqb_eq in H. now subst.
Qed.

(** [X1] Whatever the request, the environment and the upstream do, the
    handler answers (no exception escapes it) and it sends at most one
    upstream request; it sends none unless the method is POST and the body
    is accepted. *)
Theorem handler_answers_with_at_most_one_call (req : NextApiRequest) :
  exists (res : ApiResponse) (log : list FetchRequest),
    run_net (handler engine env fetch req) = (Return res, log)
    /\ (List.length log <= 1)%nat
    /\ (log <> [] -> method req = Some (js "POST") /\ accepted engine (body req) = true).
Proof.
  destruct (strict_eq_string (optional_string (method req)) (js "GET")) eqn:Hg.
  { unfold handler. rewrite Hg. do 2 eexists. split; [reflexivity|].
    split; [apply Nat.le_0_l | intros H; now elim H]. }
  destruct (strict_eq_string (optional_string (method req)) (js "POST")) eqn:Hp.
  - pose proof (method_is_post req Hp) as Hm.
    destruct (accepted engine (body req)) eqn:Ha.
    + rewrite (handler_accepted_run req Hm Ha).
      destruct (proxy_agent env) as [agent | error]; do 2 eexists;
        (split; [reflexivity|]); split; auto.
    + rewrite (GatewayFacts.handler_rejects engine env fetch req Hm Ha).
      do 2 eexists. split; [reflexivity|].
      split; [apply Nat.le_0_l | intros H; now elim H].
  - rewrite (handler_method_run req Hg Hp). do 2 eexists. split; [reflexivity|].
    split; [apply Nat.le_0_l | intros H; now elim H].
Qed.

(** [X2] A request whose method is neither GET nor POST is answered with
    status 405 and error kind [METHOD_NOT_ALLOWED], the message ends with
    the method, and nothing is sent upstream, whatever the body. *)
Theorem other_methods_not_allowed (m : jsstring) (b : JSValue) :
  m <> js "GET" -> m <> js "POST" ->
  run_net (handler engine env fetch {| method := Some m; body := b |})
  = (Return (method_not_allowed_response m), [])
  /\ res_status (method_not_allowed_response m) = 405%Z
  /\ error_kind (method_not_allowed_response m) = JString (js "METHOD_NOT_ALLOWED").
Proof.
  intros Hg Hp. split; [|split; [reflexivity | vm_compute; reflexivity]].
  apply (handler_method_run {| method := Some m; body := b |});
    cbn [method optional_string strict_eq_string].
  - destruct (JsString.eqb m (js "GET")) eqn:E; [|reflexivity].
    apply jsstring_eqb_eq in E. contradiction.
  - destruct (JsString.eqb m (js "POST")) eqn:E; [|reflexivity].
    apply jsstring_eqb_eq in E. contradiction.
Qed.

Lemma upstream_message_read (response : Response) (data : JSValue) :
  nullish data = false ->
  upstream_message engine response data
  = Return (message_of engine data
              (JString (js "上游服务返回错误: " ++ decimal_of_Z (status response)))).
Proof.
  intros Hn. unfold upstream_message, message_of.
  rewrite !(get_prop_read engine data _ Hn). cbn [bindO].
  rewrite get_opt_read. cbn [bindO].
  rewrite or_else_default. unfold or_else, or_default.
  now destruct (truthy engine (read engine (read engine data (js "error")) (js "message"))).
Qed.

(** [X3] When the upstream answers an accepted POST with status 429 and any
    JSON body, [null] included, the handler answers with status 429 and
    error kind [RATE_LIMIT], and carries the upstream body in [raw]. *)
Theorem upstream_429_is_rate_limit (req : NextApiRequest) (agent : option Agent)
  (response : Response) (data : JSValue) :
  method req = Some (js "POST") ->
  accepted engine (body req) = true ->
  proxy_agent env = Return agent ->
  fetch (request_for engine env (body req) agent) = Return response ->
  status response = 429%Z ->
  json response = Return data ->
  run_net (handler engine env fetch req)
  = (Return (rate_limit_response data), [request_for engine env (body req) agent])
  /\ error_kind (rate_limit_response data) = JString (js "RATE_LIMIT")
  /\ read engine (res_json (rate_limit_response data)) (js "raw") = data.
Proof.
  intros Hm Ha Hp Hf Hs Hj.
  split; [|split; vm_compute; reflexivity].
  rewrite (handler_accepted_run req Hm Ha), Hp, Hf.
  unfold answer_of. cbn [bindO]. rewrite Hj. cbn [bindO].
  unfold classify, ok. rewrite Hs. reflexivity.
Qed.

(** [X4] When the upstream answers an accepted POST with a status that is
    neither 2xx nor 429 and a JSON body other than [null], the handler
    answers with the same status and error kind [UPSTREAM_ERROR]; the
    message is the body's [error.message], else its [message], else a text
    that names the status; [raw] is the body. *)
Theorem upstream_error_mirrored (req : NextApiRequest) (agent : option Agent)
  (response : Response) (data : JSValue) :
  method req = Some (js "POST") ->
  accepted engine (body req) = true ->
  proxy_agent env = Return agent ->
  fetch (request_for engine env (body req) agent) = Return response ->
  ok response = false ->
  status response <> 429%Z ->
  json response = Return data ->
  nullish data = false ->
  run_net (handler engine env fetch req)
  = (Return (upstream_error_response (status response)
               (message_of engine data
                  (JString (js "上游服务返回错误: " ++ decimal_of_Z (status response))))
               data),
     [request_for engine env (body req) agent]).
Proof.
  intros Hm Ha Hp Hf Hok Hs Hj Hn.
  rewrite (handler_accepted_run req Hm Ha), Hp, Hf.
  unfold answer_of. cbn [bindO]. rewrite Hj. cbn [bindO].
  unfold classify. rewrite Hok. cbn [negb].
  apply Z.eqb_neq in Hs. rewrite Hs.
  now rewrite (upstream_message_read response data Hn).
Qed.

(** [X5] When the upstream answers an accepted POST with a status that is
    neither 2xx nor 429 and the JSON body [null], reading [data.error]
    throws and the handler answers 500 [INTERNAL_ERROR] instead of mirroring
    the upstream status. *)
Theorem upstream_error_null_body (req : NextApiRequest) (agent : option Agent)
  (response : Response) :
  method req = Some (js "POST") ->
  accepted engine (body req) = true ->
  proxy_agent env = Return agent ->
  fetch (request_for engine env (body req) agent) = Return response ->
  ok response = false ->
  status response <> 429%Z ->
  json response = Return JNull ->
  run_net (handler engine env fetch req)
  = (Return (internal_error_response (TypeError engine (ReadOfNullish JNull (js "error")))),
     [request_for engine env (body req) agent])
  /\ res_status
       (internal_error_response (TypeError engine (ReadOfNullish JNull (js "error"))))
     = 500%Z.
Proof.
  intros Hm Ha Hp Hf Hok Hs Hj. split; [|reflexivity].
  rewrite (handler_accepted_run req Hm Ha), Hp, Hf.
  unfold answer_of. cbn [bindO]. rewrite Hj. cbn [bindO].
  unfold classify. rewrite Hok. cbn [negb].
  apply Z.eqb_neq in Hs. rewrite Hs. reflexivity.
Qed.

(** [X6] When the upstream call of an accepted POST fails, or its answer
    cannot be read as JSON, the handler answers 500 [INTERNAL_ERROR] with
    the exception's message, whatever the upstream status was: 429 and
    other error statuses included. *)
Theorem unreadable_answer_is_internal_error (req : NextApiRequest)
  (agent : option Agent) (e : JSError) :
  method req = Some (js "POST") ->
  accepted engine (body req) = true ->
  proxy_agent env = Return agent ->
  fetch (request_for engine env (body req) agent) = Throw e
  \/ (exists response : Response,
        fetch (request_for engine env (body req) agent) = Return response
        /\ json response = Throw e) ->
  run_net (handler engine env fetch req)
  = (Return (internal_error_response e), [request_for engine env (body req) agent])
  /\ res_status (internal_error_response e) = 500%Z
  /\ error_kind (internal_error_response e) = JString (js "INTERNAL_ERROR").
Proof.
  intros Hm Ha Hp Hf. split; [|split; [reflexivity | vm_compute; reflexivity]].
  rewrite (handler_accepted_run req Hm Ha), Hp.
  destruct Hf as [Hf | [response [Hf Hj]]]; rewrite Hf; unfold answer_of; cbn [bindO].
  - reflexivity.
  - now rewrite Hj.
Qed.

(** The log of a run is empty, or holds the one request of an accepted
    POST. *)
Lemma handler_log_cases (req : NextApiRequest) :
  snd (run_net (handler engine env fetch req)) = []
  \/ (method req = Some (js "POST")
      /\ accepted engine (body req) = true
      /\ exists agent : option Agent,
           proxy_agent env = Return agent
           /\ snd (run_net (handler engine env fetch req))
              = [request_for engine env (body req) agent]).
Proof.
  destruct (strict_eq_string (optional_string (method req)) (js "GET")) eqn:Hg.
  { left. unfold handler. now rewrite Hg. }
  destruct (strict_eq_string (optional_string (method req)) (js "POST")) eqn:Hp.
  - pose proof (method_is_post req Hp) as Hm.
    destruct (accepted engine (body req)) eqn:Ha.
    + rewrite (handler_accepted_run req Hm Ha).
      destruct (proxy_agent env) as [agent | error]; [|now left].
      right. repeat split; trivial. now exists agent.
    + left. now rewrite (GatewayFacts.handler_rejects engine env fetch req Hm Ha).
  - left. now rewrite (handler_method_run req Hg Hp).
Qed.

Lemma not_local :
  NODE_ENV env <> Some (js "development") -> isLocal env = false.
Proof.
  unfold isLocal. destruct (NODE_ENV env) as [v |]; [|reflexivity].
  intros Hv. cbn [optional_string strict_eq_string].
  destruct (JsString.eqb v (js "development")) eqn:E; [|reflexivity].
  apply jsstring_eqb_eq in E. subst. now elim Hv.
Qed.

(** [X7] A request the handler sends carries no proxy agent unless
    [NODE_ENV] is [development] and [HTTP_PROXY] is set to a non-empty
    value: outside the development environment the proxy is never used,
    even when one is configured. *)
Theorem proxy_only_in_development (req : NextApiRequest) (r : FetchRequest) :
  NODE_ENV env <> Some (js "development")
  \/ HTTP_PROXY env = None \/ HTTP_PROXY env = Some [] ->
  In r (snd (run_net (handler engine env fetch req))) ->
  init_agent r = None.
Proof.
  intros Hc Hin.
  assert (Hp : proxy_agent env = Return None).
  { unfold proxy_agent. destruct Hc as [Hc | [Hc | Hc]].
    - now rewrite (not_local Hc).
    - rewrite Hc. now destruct (isLocal env).
    - rewrite Hc. now destruct (isLocal env). }
  destruct (handler_log_cases req) as [Hl | (_ & _ & agent & Ha & Hl)];
    rewrite Hl in Hin; [now elim Hin|].
  rewrite Hp in Ha. injection Ha as <-.
  destruct Hin as [<- | []]. reflexivity.
Qed.

(** [X8] In the development environment with a non-empty [HTTP_PROXY], an
    accepted POST is sent through the agent built for that proxy; when the
    agent cannot be built the handler answers 500 [INTERNAL_ERROR] and
    nothing is sent. *)
Theorem proxy_in_development (req : NextApiRequest) (proxy : jsstring) :
  NODE_ENV env = Some (js "development") ->
  HTTP_PROXY env = Some proxy ->
  proxy <> [] ->
  method req = Some (js "POST") ->
  accepted engine (body req) = true ->
  (forall agent : Agent,
     new_HttpsProxyAgent env proxy = Return agent ->
     snd (run_net (handler engine env fetch req))
     = [request_for engine env (body req) (Some agent)])
  /\ (forall error : JSError,
        new_HttpsProxyAgent env proxy = Throw error ->
        run_net (handler engine env fetch req)
        = (Return (internal_error_response error), [])).
Proof.
  intros Hn Hx Hne Hm Ha.
  rewrite (handler_accepted_run req Hm Ha).
  assert (Hl : isLocal env = true).
  { unfold isLocal. rewrite Hn. vm_compute. reflexivity. }
  unfold proxy_agent. rewrite Hl, Hx.
  destruct proxy as [|c p]; [now elim Hne|].
  split; intros x Hx'; rewrite Hx'; reflexivity.
Qed.

(** [X9] Every request the handler sends is a POST of
    [{ contents: [{ parts }] }] to the model's URL with the configured key
    in the query string; when no key is configured the request is sent all
    the same, with the text [undefined] as the key. *)
Theorem credential_in_query (req : NextApiRequest) (r : FetchRequest) :
  In r (snd (run_net (handler engine env fetch req))) ->
  url r = API_URL ++ js "?key=" ++ match GOOGLE_API_KEY env with
                                   | Some key => key
                                   | None => js "undefined"
                                   end
  /\ init_method r = js "POST"
  /\ init_body r = request_body (parts_of engine (body req)).
Proof.
  intros Hin.
  destruct (handler_log_cases req) as [Hl | (_ & _ & agent & Ha & Hl)];
    rewrite Hl in Hin; [now elim Hin|].
  destruct Hin as [<- | []]. repeat split.
Qed.

End Facts.

End GatewayMore.

(** * Further properties of the service *)

Module ServiceMore.
Import GeminiService.

Section Facts.

Variable engine : Engine.
Variable fetch : FetchRequest -> Outcome Response.

(** [X10] Each of the seven operations sends exactly one request, whether
    the call succeeds, fails or is answered with an error: nothing is
    retried. *)
Theorem one_request_per_operation (text base64 mimeType url : jsstring) :
  List.length (snd (run_net (analyzeText engine fetch text))) = 1%nat
  /\ List.length (snd (run_net (analyzeImage engine fetch base64))) = 1%nat
  /\ List.length (snd (run_net (analyzeDocument engine fetch base64 mimeType))) = 1%nat
  /\ List.length (snd (run_net (analyzeAudioFile engine fetch base64 mimeType))) = 1%nat
  /\ List.length (snd (run_net (analyzeVideoFile engine fetch base64 mimeType))) = 1%nat
  /\ List.length (snd (run_net (analyzeWebUrl engine fetch url))) = 1%nat
  /\ List.length (snd (run_net (analyzeVideoUrl engine fetch url))) = 1%nat.
Proof.
  unfold analyzeText, analyzeImage, analyzeAudioFile, analyzeVideoFile, analyzeDocument,
    analyzeWebUrl, analyzeVideoUrl.
  rewrite !ServiceFacts.requestBackend_run. repeat split.
Qed.


(** *** [split(',')[1] || base64] *)

Lemma split_comma_segments (s : jsstring) :
  Forall (fun seg => ~ In cu_comma seg) (split_comma s).
Proof.
  induction s as [|c r IH]; cbn [split_comma].
  - constructor; [intros [] | constructor].
  - destruct (N.eqb_spec c cu_comma) as [-> | Hc].
    + constructor; [intros [] | exact IH].
    + destruct (split_comma r) as [|seg segs]; [constructor; [|constructor]|].
      * intros [H | []]. now elim Hc.
      * inversion IH as [|? ? Hseg Hsegs]; subst. constructor; [|exact Hsegs].
        intros [H | H]; [now elim Hc | now apply Hseg].
Qed.

Lemma strip_data_url_cases (s : jsstring) :
  strip_data_url s = s
  \/ (strip_data_url s <> [] /\ ~ In cu_comma (strip_data_url s)).
Proof.
  unfold strip_data_url.
  destruct (nth_error (split_comma s) 1) as [[|c r] |] eqn:E; try now left.
  right. split; [discriminate|].
  pose proof (split_comma_segments s) as Hall.
  rewrite Forall_forall in Hall. apply Hall. eapply nth_error_In. exact E.
Qed.

(** [X12] What [analyzeImage] and [analyzeDocument] send for the input [s]
    is either [s] itself or a non-empty piece of it without a comma, and
    stripping again changes nothing.  A data URL with nothing after the
    comma is sent as it is, prefix included. *)
Theorem strip_data_url_stable (s : jsstring) :
  (strip_data_url s = s
   \/ (strip_data_url s <> [] /\ ~ In cu_comma (strip_data_url s)))
  /\ strip_data_url (strip_data_url s) = strip_data_url s
  /\ (~ In cu_comma s -> strip_data_url (s ++ [cu_comma]) = s ++ [cu_comma]).
Proof.
  split; [apply strip_data_url_cases|]. split.
  - destruct (strip_data_url_cases s) as [H | [_ Hc]]; [now rewrite !H|].
    now apply ServiceFacts.strip_data_url_bare.
  - intros Hs. unfold strip_data_url.
    now rewrite (ServiceFacts.split_comma_prefix s [] Hs).
Qed.

(** *** The summary is never empty *)

Lemma or_default_truthy (a d : JSValue) :
  truthy engine d = true -> truthy engine (or_default engine a d) = true.
Proof.
  intros Hd. unfold or_default. now destruct (truthy engine a) eqn:E.
Qed.

Lemma rate_limit_result_summary (data : JSValue) (r : AnalysisResult) :
  rate_limit_result engine data = Return r -> truthy engine (summary r) = true.
Proof.
  unfold rate_limit_result.
  destruct (get_prop engine data (js "message")) as [m | e]; cbn [bindO]; [|discriminate].
  rewrite or_else_default. cbn [bindO]. now intros [= <-].
Qed.

Lemma other_error_result_summary (response : Response) (data : JSValue)
  (r : AnalysisResult) :
  other_error_result engine response data = Return r -> truthy engine (summary r) = true.
Proof.
  unfold other_error_result.
  destruct (get_prop engine data (js "error")) as [e0 | e]; cbn [bindO]; [|discriminate].
  destruct (get_opt engine e0 (js "message")) as [em | e]; cbn [bindO]; [|discriminate].
  destruct (or_else engine em _) as [msg | e]; cbn [bindO]; [|discriminate].
  destruct (ToString engine msg) as [shown | e]; cbn [bindO]; [|discriminate].
  now intros [= <-].
Qed.

Lemma structured_result_summary (parsed aiResponse : JSValue) (r : AnalysisResult) :
  structured_result engine parsed aiResponse = Return r ->
  truthy engine (summary r) = true.
Proof.
  unfold structured_result.
  destruct (get_prop engine parsed (js "summary")) as [s0 | e]; cbn [bindO]; [|discriminate].
  rewrite or_else_default. cbn [bindO].
  destruct (get_prop engine parsed (js "keyPoints")) as [k0 | e]; cbn [bindO]; [|discriminate].
  rewrite or_else_default. cbn [bindO].
  destruct (get_prop engine parsed (js "conclusion")) as [c0 | e]; cbn [bindO]; [|discriminate].
  rewrite or_else_default. cbn [bindO].
  destruct (get_prop engine parsed (js "detailedAnalysis")) as [d0 | e]; cbn [bindO];
    [|discriminate].
  rewrite or_else_default. cbn [bindO]. intros [= <-]. cbn [summary].
  now apply or_default_truthy.
Qed.

Lemma plain_result_summary (aiResponse : JSValue) (r : AnalysisResult) :
  plain_result engine aiResponse = Return r -> truthy engine (summary r) = true.
Proof.
  unfold plain_result.
  destruct (call_substring engine aiResponse) as [head | e]; cbn [bindO]; [|discriminate].
  intros [= <-]. cbn [summary]. now destruct head.
Qed.

Lemma normalize_summary (response : Response) (r : AnalysisResult) :
  normalize engine response = Return r -> truthy engine (summary r) = true.
Proof.
  unfold normalize.
  destruct (json response) as [data | e]; cbn [bindO]; [|discriminate].
  destruct (negb (ok response)).
  - unfold error_result.
    destruct (if (status response =? 429)%Z then _ else _) as [[|] | e]; cbn [bindO].
    + apply rate_limit_result_summary.
    + apply other_error_result_summary.
    + discriminate.
  - destruct (extract_text engine data) as [ai | e]; cbn [bindO]; [|discriminate].
    destruct (try_structured engine ai) as [[r' | ] | e] eqn:Et; cbn [bindO].
    + intros [= <-]. revert Et. unfold try_structured, try_catch.
      destruct (call_includes engine ai) as [[|] | e]; cbn [bindO]; try discriminate.
      destruct (call_replace_trim engine ai) as [text | e]; cbn [bindO]; [|discriminate].
      destruct (JSON_parse engine text) as [parsed | e]; cbn [bindO]; [|discriminate].
      destruct (structured_result engine parsed ai) as [r'' | e] eqn:Es; cbn [bindO];
        [|discriminate].
      intros [= <-]. now apply structured_result_summary with (1 := Es).
    + apply plain_result_summary.
    + discriminate.
Qed.

(** [X13] Whatever the network answers, the result of a request has a
    [summary] that is truthy: a summary that is a string is never the empty
    string, on any path. *)
Theorem summary_never_empty (payload : JSValue) :
  exists r : AnalysisResult,
    fst (run_net (requestBackend engine fetch payload)) = Return r
    /\ truthy engine (summary r) = true.
Proof.
  rewrite ServiceFacts.requestBackend_run. cbn [fst]. eexists. split; [reflexivity|].
  destruct (fetch (gateway_request payload)) as [response | error]; [|reflexivity].
  destruct (normalize engine response) as [r | error] eqn:En; [|reflexivity].
  now apply normalize_summary with (1 := En).
Qed.

(** *** Where a field can have another type than declared *)

Ltac typed := repeat split; cbn; eexists; reflexivity.

Lemma error_result_typed (response : Response) (data : JSValue) (r : AnalysisResult) :
  error_result engine response data = Return r -> well_typed r.
Proof.
  unfold error_result.
  destruct (if (status response =? 429)%Z then _ else _) as [[|] | e]; cbn [bindO];
    [| |discriminate].
  - unfold rate_limit_result.
    destruct (get_prop engine data (js "message")) as [m | e]; cbn [bindO]; [|discriminate].
    rewrite or_else_default. cbn [bindO]. intros [= <-]. typed.
  - unfold other_error_result.
    destruct (get_prop engine data (js "error")) as [e0 | e]; cbn [bindO]; [|discriminate].
    destruct (get_opt engine e0 (js "message")) as [em | e]; cbn [bindO]; [|discriminate].
    destruct (or_else engine em _) as [msg | e]; cbn [bindO]; [|discriminate].
    destruct (ToString engine msg) as [shown | e]; cbn [bindO]; [|discriminate].
    intros [= <-]. typed.
Qed.

Lemma plain_result_typed (aiResponse : JSValue) (r : AnalysisResult) :
  plain_result engine aiResponse = Return r -> well_typed r.
Proof.
  unfold plain_result.
  destruct (call_substring engine aiResponse) as [head | e]; cbn [bindO]; [|discriminate].
  intros [= <-]. typed.
Qed.

Lemma try_structured_some (aiResponse : JSValue) (r : AnalysisResult) :
  try_structured engine aiResponse = Return (Some r) ->
  exists (text : jsstring) (parsed : JSValue),
    aiResponse = JString text
    /\ includes_lbrace text = true
    /\ JSON.parse (trim (replace_fences text)) = Some parsed
    /\ structured_result engine parsed (JString text) = Return r.
Proof.
  unfold try_structured, try_catch.
  destruct aiResponse as [| | b | n | text | items | fields]; cbn [call_includes bindO];
    try discriminate.
  - destruct (includes_lbrace text) eqn:Ei; cbn [call_replace_trim bindO]; [|discriminate].
    unfold JSON_parse.
    destruct (JSON.parse (trim (replace_fences text))) as [parsed |] eqn:Ep; cbn [bindO];
      [|discriminate].
    destruct (structured_result engine parsed (JString text)) as [r' | e] eqn:Es;
      cbn [bindO]; [|discriminate].
    intros [= <-]. now exists text, parsed.
  - destruct (existsb _ items); cbn [call_replace_trim bindO]; discriminate.
Qed.

(** [X14] The result of a request has a string [summary], an array
    [keyPoints] and a string [conclusion], as [AnalysisResult] declares,
    except possibly when the fields were read from JSON that the answer's
    text parsed to: only there can a field hold another kind of value. *)
Theorem untyped_only_from_parsed_json (payload : JSValue) :
  exists r : AnalysisResult,
    fst (run_net (requestBackend engine fetch payload)) = Return r
    /\ (well_typed r
        \/ exists (response : Response) (data : JSValue) (text : jsstring)
                  (parsed : JSValue),
             fetch (gateway_request payload) = Return response
             /\ ok response = true
             /\ json response = Return data
             /\ extract_text engine data = Return (JString text)
             /\ includes_lbrace text = true
             /\ JSON.parse (trim (replace_fences text)) = Some parsed
             /\ structured_result engine parsed (JString text) = Return r).
Proof.
  rewrite ServiceFacts.requestBackend_run. cbn [fst]. eexists. split; [reflexivity|].
  destruct (fetch (gateway_request payload)) as [response | error] eqn:Ef;
    [|left; typed].
  destruct (normalize engine response) as [r | error] eqn:En; [|left; typed].
  revert En. unfold normalize.
  destruct (json response) as [data | e] eqn:Ej; cbn [bindO]; [|discriminate].
  destruct (ok response) eqn:Eok; cbn [negb].
  - destruct (extract_text engine data) as [ai | e] eqn:Ex; cbn [bindO]; [|discriminate].
    destruct (try_structured engine ai) as [[r' | ] | e] eqn:Et; cbn [bindO].
    + intros [= <-]. right.
      destruct (try_structured_some ai r' Et) as (text & parsed & -> & Hi & Hp & Hs).
      now exists response, data, text, parsed.
    + intros H. left. now apply plain_result_typed with (1 := H).
    + discriminate.
  - intros H. left. now apply error_result_typed with (1 := H).
Qed.

(** *** Errors that are not rate limits *)

Lemma other_error_result_read (response : Response) (data : JSValue) :
  nullish data = false ->
  other_error_result engine response data
  = (shown <-- ToString engine
                 (message_of engine data
                    (JString (js "请求失败: " ++ decimal_of_Z (status response)))) ;;
     Return {| summary := JString (js "错误: " ++ shown);
               keyPoints := JArray [];
               conclusion := JString (js "请求失败");
               detailedAnalysis :=
                 message_of engine data
                   (JString (js "请求失败: " ++ decimal_of_Z (status response))) |}).
Proof.
  intros Hn. unfold other_error_result, message_of.
  rewrite !(get_prop_read engine data _ Hn). cbn [bindO].
  rewrite get_opt_read. cbn [bindO].
  rewrite or_else_default. unfold or_else, or_default.
  now destruct (truthy engine (read engine (read engine data (js "error")) (js "message"))).
Qed.

(** [X15] An answer that is not ok, has a status other than 429 and a JSON
    body whose [error] is not [RATE_LIMIT] is normalised to a result whose
    [summary] is [错误: ] followed by the message, where the message is the
    body's [error.message], else its [message], else a text that names the
    status; [keyPoints] is empty. *)
Theorem other_error_normalized (payload : JSValue) (response : Response)
  (data : JSValue) (shown : jsstring) :
  fetch (gateway_request payload) = Return response ->
  ok response = false ->
  status response <> 429%Z ->
  json response = Return data ->
  nullish data = false ->
  strict_eq_string (read engine data (js "error")) (js "RATE_LIMIT") = false ->
  ToString engine
    (message_of engine data (JString (js "请求失败: " ++ decimal_of_Z (status response))))
  = Return shown ->
  fst (run_net (requestBackend engine fetch payload))
  = Return {| summary := JString (js "错误: " ++ shown);
              keyPoints := JArray [];
              conclusion := JString (js "请求失败");
              detailedAnalysis :=
                message_of engine data
                  (JString (js "请求失败: " ++ decimal_of_Z (status response))) |}.
Proof.
  intros Hf Hok Hs Hj Hn He Hshown.
  rewrite ServiceFacts.requestBackend_run, Hf. cbn [fst].
  unfold normalize. rewrite Hj, Hok. cbn [bindO negb].
  unfold error_result. apply Z.eqb_neq in Hs. rewrite Hs.
  rewrite (get_prop_read engine data _ Hn). cbn [bindO]. rewrite He.
  rewrite (other_error_result_read response data Hn), Hshown. reflexivity.
Qed.

(** [X16] When the call fails, or the answer cannot be read as JSON
    whatever its status, the result is built from the exception: [summary]
    is [错误: ] followed by its message, [keyPoints] is empty. *)
Theorem failure_becomes_result (payload : JSValue) (e : JSError) :
  fetch (gateway_request payload) = Throw e
  \/ (exists response : Response,
        fetch (gateway_request payload) = Return response
        /\ json response = Throw e) ->
  fst (run_net (requestBackend engine fetch payload))
  = Return {| summary := JString (js "错误: " ++ error_message e);
              keyPoints := JArray [];
              conclusion := JString (js "请求失败");
              detailedAnalysis := JString (error_message e) |}.
Proof.
  intros [Hf | [response [Hf Hj]]];
    rewrite ServiceFacts.requestBackend_run, Hf; cbn [fst]; [reflexivity|].
  unfold normalize. now rewrite Hj.
Qed.

(** *** An answer without text *)

Lemma read_undefined (key : jsstring) : read engine JUndefined key = JUndefined.
Proof. reflexivity. Qed.



(** *** Code fences *)

Lemma no_fence_at (c : N) (r : jsstring) :
  c <> cu_backtick ->
  starts_with (js "```json") (c :: r) = false /\ starts_with (js "```") (c :: r) = false.
Proof.
  intros Hc.
  change (js "```json") with [96; 96; 96; 106; 115; 111; 110]%N.
  change (js "```") with [96; 96; 96]%N.
  cbn [starts_with]. destruct (N.eqb_spec 96 c) as [E | E]; [|now split].
  elim Hc. now rewrite <- E.
Qed.

Lemma replace_fences_from_plain (t rest : jsstring) :
  ~ In cu_backtick t ->
  replace_fences_from 0 (t ++ rest) = t ++ replace_fences_from 0 rest.
Proof.
  induction t as [|c r IH]; intros Ht; [reflexivity|].
  assert (Hc : c <> cu_backtick) by (intros ->; apply Ht; now left).
  destruct (no_fence_at c (r ++ rest) Hc) as [H1 H2].
  cbn [app]. cbn [replace_fences_from]. rewrite H1, H2.
  rewrite IH; [reflexivity|]. intros Hin. apply Ht. now right.
Qed.

(** [X18] The replacement that precedes [JSON.parse] leaves a text without
    backticks as it is, and turns such a text wrapped in a [```json] fence
    and a closing [```] into the text alone. *)
Theorem fences_unwrapped (t : jsstring) :
  ~ In cu_backtick t ->
  replace_fences t = t
  /\ replace_fences (js "```json" ++ t ++ js "```") = t.
Proof.
  intros Ht. unfold replace_fences. split.
  - rewrite <- (app_nil_r t) at 1.
    rewrite (replace_fences_from_plain t [] Ht). apply app_nil_r.
  - change (js "```json" ++ t ++ js "```")
      with (96 :: 96 :: 96 :: 106 :: 115 :: 111 :: 110 :: t ++ [96; 96; 96])%N.
    change (replace_fences_from 0
              (96 :: 96 :: 96 :: 106 :: 115 :: 111 :: 110 :: t ++ [96; 96; 96])%N)
      with (replace_fences_from 0 (t ++ [96; 96; 96]%N)).
    rewrite (replace_fences_from_plain t _ Ht).
    change (replace_fences_from 0 [96; 96; 96]%N) with (@nil N). apply app_nil_r.
Qed.

End Facts.

End ServiceMore.

(** * The service behind the gateway *)

Module Together.
Import Gateway GeminiService.

Section Facts.

Variable engine : Engine.
Variable env : Env.
Variable upstream : FetchRequest -> Outcome Response.

(** What the service receives for an accepted payload. *)
Lemma via_gateway_accepted (payload : JSValue) (agent : option Agent) :
  accepted engine payload = true ->
  proxy_agent env = Return agent ->
  via_gateway engine env upstream (gateway_request payload)
  = Return
      {| status := res_status (answer_of engine (upstream (request_for engine env payload agent)));
         json := Return
                   (res_json (answer_of engine
                                (upstream (request_for engine env payload agent)))) |}.
Proof.
  intros Ha Hp. unfold via_gateway.
  rewrite (GatewayMore.handler_accepted_run engine env upstream
             {| method := Some (init_method (gateway_request payload));
                body := init_body (gateway_request payload) |} eq_refl Ha).
  cbn [body gateway_request init_body]. now rewrite Hp.
Qed.

(** [X21] A payload the gateway does not accept (no text, no image, no
    file data: the empty text of [analyzeText] for one) comes back to the
    caller as a result, not as an exception: [summary] is [错误: ]
    followed by the gateway's message, [keyPoints] is empty. *)
Theorem rejected_payload_through_gateway (payload : JSValue) :
  accepted engine payload = false ->
  fst (run_net (requestBackend engine (via_gateway engine env upstream) payload))
  = Return (failed_result (JString invalid_request_message) invalid_request_message).
Proof.
  intros Ha. rewrite ServiceFacts.requestBackend_run. cbn [fst].
  unfold via_gateway.
  rewrite (GatewayFacts.handler_rejects engine env upstream
             {| method := Some (init_method (gateway_request payload));
                body := init_body (gateway_request payload) |} eq_refl Ha).
  vm_compute. reflexivity.
Qed.

(** [X22] When the upstream answers an accepted payload with status 429,
    whatever its body, the caller gets the quota result whose one key point
    is the gateway's rate-limit message. *)
Theorem rate_limit_through_gateway (payload : JSValue) (agent : option Agent)
  (response : Response) (data : JSValue) :
  accepted engine payload = true ->
  proxy_agent env = Return agent ->
  upstream (request_for engine env payload agent) = Return response ->
  status response = 429%Z ->
  json response = Return data ->
  fst (run_net (requestBackend engine (via_gateway engine env upstream) payload))
  = Return (quota_result
              (JString (js "Google Gemini API 调用额度已超限，请稍后重试或检查配额设置。"))).
Proof.
  intros Ha Hp Hu Hs Hj. rewrite ServiceFacts.requestBackend_run. cbn [fst].
  rewrite (via_gateway_accepted payload agent Ha Hp), Hu.
  unfold answer_of. cbn [bindO]. rewrite Hj. cbn [bindO].
  unfold classify, ok. rewrite Hs.
  vm_compute. reflexivity.
Qed.

(** [X23] When the upstream call for an accepted payload fails, or its
    answer cannot be read as JSON, the caller gets a result whose [summary]
    is [错误: ] followed by the exception's message, or by the gateway's
    default text when that message is empty. *)
Theorem failure_through_gateway (payload : JSValue) (agent : option Agent)
  (e : JSError) :
  accepted engine payload = true ->
  proxy_agent env = Return agent ->
  upstream (request_for engine env payload agent) = Throw e
  \/ (exists response : Response,
        upstream (request_for engine env payload agent) = Return response
        /\ json response = Throw e) ->
  fst (run_net (requestBackend engine (via_gateway engine env upstream) payload))
  = Return (failed_result
              (JString (match error_message e with
                        | [] => js "Gemini 代理内部错误"
                        | c :: r => c :: r
                        end))
              (match error_message e with
               | [] => js "Gemini 代理内部错误"
               | c :: r => c :: r
               end)).
Proof.
  intros Ha Hp Hu. rewrite ServiceFacts.requestBackend_run. cbn [fst].
  rewrite (via_gateway_accepted payload agent Ha Hp).
  assert (Hans : answer_of engine (upstream (request_for engine env payload agent))
                 = internal_error_response e).
  { unfold answer_of. destruct Hu as [Hu | [response [Hu Hj]]]; rewrite Hu; cbn [bindO].
    - reflexivity.
    - now rewrite Hj. }
  rewrite Hans. destruct (error_message e) as [|c r] eqn:Em.
  - unfold internal_error_response. rewrite Em. vm_compute. reflexivity.
  - unfold internal_error_response. rewrite Em.
    unfold normalize. cbn [json status res_status res_json bindO ok].
    cbn [Z.leb Z.compare Pos.compare Pos.compare_cont andb negb].
    unfold error_result. cbn [status Z.eqb Pos.eqb bindO].
    reflexivity.
Qed.





End Facts.

End Together.

(** * The component *)

Module AppFacts.
Import App.

Section Facts.

Variable engine : Engine.
Variable fetch : FetchRequest -> Outcome Response.
Variable toLowerCase : jsstring -> jsstring.
Variable reader : File -> ReadAs -> jsstring.

Lemma handleProcess_refuses (st : State) (m : jsstring) :
  analyse engine fetch st = throw_error m ->
  m <> [] ->
  run_net (handleProcess engine fetch st) = (Return (refused m st), []).
Proof.
  intros Ha Hm. unfold handleProcess, run_net, try_net, bind.
  replace (analyse engine fetch
             (setStatus {| isAnalyzing := true; error := None; result := None |} st))
    with (analyse engine fetch st) by reflexivity.
  rewrite Ha. unfold throw_error, lift, ret, refused, shown_error. cbn [error_message].
  destruct m; [now elim Hm | reflexivity].
Qed.

Lemma handleProcess_sends (st : State) (payload : JSValue) :
  analyse engine fetch st = GeminiService.requestBackend engine fetch payload ->
  run_net (handleProcess engine fetch st)
  = (Return (analysed (result_of engine fetch payload) st),
     [GeminiService.gateway_request payload]).
Proof.
  intros Ha. unfold result_of.
  rewrite (ServiceFacts.requestBackend_run engine fetch payload). cbn [fst].
  unfold handleProcess, run_net, try_net, bind.
  replace (analyse engine fetch
             (setStatus {| isAnalyzing := true; error := None; result := None |} st))
    with (analyse engine fetch st) by reflexivity.
  rewrite Ha.
  pose proof (ServiceFacts.requestBackend_run engine fetch payload) as Hr.
  unfold run_net in Hr. rewrite Hr. reflexivity.
Qed.

(** The analysis either refuses with one of the messages, or is one
    request of the service. *)
Lemma analyse_cases (st : State) :
  (exists m : jsstring,
     In m refusal_messages /\ analyse engine fetch st = throw_error m)
  \/ (exists payload : JSValue,
        analyse engine fetch st = GeminiService.requestBackend engine fetch payload).
Proof.
  unfold analyse, analyse_text, refusal_messages.
  destruct (activeTab st).
  - destruct (fileData st) as [f |].
    + destruct (JsString.eqb (type f) (js "application/pdf")); [right; now eexists|].
      destruct (text_content st) as [[|c r] |]; [left | right; now eexists | left];
        eexists; (split; [|reflexivity]); cbn; tauto.
    + destruct (text_content st) as [[|c r] |]; [left | right; now eexists | left];
        eexists; (split; [|reflexivity]); cbn; tauto.
  - destruct (fileData st) as [f |].
    + destruct (negb (starts_with (js "image/") (type f))); [left | right; now eexists].
      eexists; (split; [|reflexivity]); cbn; tauto.
    + left. eexists; (split; [|reflexivity]); cbn; tauto.
  - destruct (fileData st) as [f |].
    + destruct (negb (starts_with (js "audio/") (type f))); [left | right; now eexists].
      eexists; (split; [|reflexivity]); cbn; tauto.
    + left. eexists; (split; [|reflexivity]); cbn; tauto.
  - destruct (videoMode st).
    + destruct (trim (videoUrl st)); [left | right; now eexists].
      eexists; (split; [|reflexivity]); cbn; tauto.
    + destruct (fileData st) as [f |].
      * destruct (negb (starts_with (js "video/") (type f))); [left | right; now eexists].
        eexists; (split; [|reflexivity]); cbn; tauto.
      * left. eexists; (split; [|reflexivity]); cbn; tauto.
  - destruct (trim (webUrl st)); [left | right; now eexists].
    eexists; (split; [|reflexivity]); cbn; tauto.
Qed.

Lemma refusal_messages_not_empty (m : jsstring) : In m refusal_messages -> m <> [].
Proof.
  unfold refusal_messages. cbn [In].
  intros [<- | [<- | [<- | [<- | [<- | [<- | []]]]]]]; discriminate.
Qed.

(** [X26] [handleProcess] always ends with [isAnalyzing] false and exactly
    one of [error] and [result] set, and leaves the inputs as they were.
    When [result] is set, one request was sent and the result's three
    required fields are defined.  When [error] is set, it is one of the
    six input messages and nothing was sent: a failure of the network or of
    the upstream never shows as [error], it comes back as a result. *)
Theorem process_outcome (st : State) :
  exists (st' : State) (log : list FetchRequest),
    run_net (handleProcess engine fetch st) = (Return st', log)
    /\ isAnalyzing (status st') = false
    /\ (activeTab st', videoMode st', textInput st', videoUrl st', webUrl st', fileData st')
       = (activeTab st, videoMode st, textInput st, videoUrl st, webUrl st, fileData st)
    /\ ((exists r : AnalysisResult,
           result (status st') = Some r /\ error (status st') = None
           /\ fully_populated r /\ List.length log = 1%nat)
        \/ (exists m : jsstring,
              error (status st') = Some m /\ result (status st') = None
              /\ In m refusal_messages /\ log = [])).
Proof.
  destruct (analyse_cases st) as [(m & Hin & Ha) | (payload & Ha)].
  - rewrite (handleProcess_refuses st m Ha (refusal_messages_not_empty m Hin)).
    do 2 eexists. split; [reflexivity|]. repeat split.
    right. exists m. now repeat split.
  - rewrite (handleProcess_sends st payload Ha).
    do 2 eexists. split; [reflexivity|]. repeat split.
    left. exists (result_of engine fetch payload). repeat split.
    + unfold result_of.
      destruct (ServiceFacts.requestBackend_populated engine fetch payload)
        as (r & Hr & Hpop).
      rewrite Hr. apply Hpop.
    + unfold result_of.
      destruct (ServiceFacts.requestBackend_populated engine fetch payload)
        as (r & Hr & Hpop).
      rewrite Hr. apply Hpop.
    + unfold result_of.
      destruct (ServiceFacts.requestBackend_populated engine fetch payload)
        as (r & Hr & Hpop).
      rewrite Hr. apply Hpop.
Qed.

(** [X27] On the text tab an uploaded PDF wins over typed text: it is
    sent as a document and the text input is ignored.  Without a PDF, typed
    text wins over the text of an uploaded file, which is sent only when
    nothing is typed; with neither, the analysis is refused and nothing is
    sent. *)
Theorem text_tab_precedence (st : State) :
  activeTab st = TEXT ->
  (forall f : FileData,
     fileData st = Some f -> type f = js "application/pdf" ->
     snd (run_net (handleProcess engine fetch st))
     = [GeminiService.gateway_request
          (document_payload (GeminiService.strip_data_url (base64 f))
             (js "application/pdf"))])
  /\ (has_pdf st = false -> textInput st <> [] ->
      snd (run_net (handleProcess engine fetch st))
      = [GeminiService.gateway_request (text_only_payload (textInput st))])
  /\ (forall (f : FileData) (content : jsstring),
        has_pdf st = false -> textInput st = [] ->
        fileData st = Some f -> rawText f = Some content -> content <> [] ->
        snd (run_net (handleProcess engine fetch st))
        = [GeminiService.gateway_request (text_only_payload content)])
  /\ (has_pdf st = false -> textInput st = [] ->
      (forall f : FileData,
         fileData st = Some f -> rawText f = None \/ rawText f = Some []) ->
      run_net (handleProcess engine fetch st) = (Return (refused no_text_message st), [])).
Proof.
  intros Ht. repeat split.
  - intros f Hf Hty.
    rewrite (handleProcess_sends st
               (document_payload (GeminiService.strip_data_url (base64 f))
                  (js "application/pdf"))); [reflexivity|].
    unfold analyse. rewrite Ht, Hf, Hty. reflexivity.
  - intros Hp Hi.
    rewrite (handleProcess_sends st (text_only_payload (textInput st))); [reflexivity|].
    unfold analyse, analyse_text, text_content. rewrite Ht.
    unfold has_pdf in Hp. destruct (fileData st) as [f |]; [rewrite Hp|];
      destruct (textInput st); try reflexivity; now elim Hi.
  - intros f content Hp Hi Hf Hr Hc.
    rewrite (handleProcess_sends st (text_only_payload content)); [reflexivity|].
    unfold analyse, analyse_text, text_content. rewrite Ht.
    unfold has_pdf in Hp. rewrite Hf in *. rewrite Hp, Hi, Hr.
    destruct content; [now elim Hc | reflexivity].
  - intros Hp Hi Hf.
    apply handleProcess_refuses; [|discriminate].
    unfold analyse, analyse_text, text_content. rewrite Ht, Hi.
    unfold has_pdf in Hp. destruct (fileData st) as [f |]; [rewrite Hp|reflexivity].
    destruct (Hf f eq_refl) as [-> | ->]; reflexivity.
Qed.

(** [X28] On the web tab, and on the video tab in URL mode, a URL that is
    empty or all white space is refused and nothing is sent; any other URL
    is sent as typed, white space around it included, behind the fixed
    instruction. *)
Theorem url_tabs (st : State) :
  (activeTab st = WEB ->
   (trim (webUrl st) = [] ->
    run_net (handleProcess engine fetch st) = (Return (refused no_web_url_message st), []))
   /\ (trim (webUrl st) <> [] ->
       snd (run_net (handleProcess engine fetch st))
       = [GeminiService.gateway_request
            (text_only_payload (js "请分析此网页内容：" ++ webUrl st))]))
  /\ (activeTab st = VIDEO -> videoMode st = URL ->
      (trim (videoUrl st) = [] ->
       run_net (handleProcess engine fetch st)
       = (Return (refused no_video_url_message st), []))
      /\ (trim (videoUrl st) <> [] ->
          snd (run_net (handleProcess engine fetch st))
          = [GeminiService.gateway_request
               (text_only_payload (js "请分析此视频内容：" ++ videoUrl st))])).
Proof.
  split.
  - intros Ht. split; intros Hu.
    + apply handleProcess_refuses; [|discriminate].
      unfold analyse. now rewrite Ht, Hu.
    + rewrite (handleProcess_sends st
                 (text_only_payload (js "请分析此网页内容：" ++ webUrl st))); [reflexivity|].
      unfold analyse. rewrite Ht. destruct (trim (webUrl st)); [now elim Hu | reflexivity].
  - intros Ht Hm. split; intros Hu.
    + apply handleProcess_refuses; [|discriminate].
      unfold analyse. now rewrite Ht, Hm, Hu.
    + rewrite (handleProcess_sends st
                 (text_only_payload (js "请分析此视频内容：" ++ videoUrl st)));
        [reflexivity|].
      unfold analyse. rewrite Ht, Hm.
      destruct (trim (videoUrl st)); [now elim Hu | reflexivity].
Qed.

(** *** Upload, then analysis *)

Lemma first_unit (c : N) (p t : jsstring) :
  starts_with (c :: p) t = true -> exists t' : jsstring, t = c :: t'.
Proof.
  destruct t as [|d t']; cbn [starts_with]; [discriminate|].
  intros H. apply andb_prop in H as [H _]. apply N.eqb_eq in H. subst. now eexists.
Qed.

Lemma eqb_first_unit (c d : N) (t u : jsstring) :
  c <> d -> JsString.eqb (c :: t) (d :: u) = false.
Proof.
  intros Hcd. destruct (JsString.eqb (c :: t) (d :: u)) eqn:E; [|reflexivity].
  apply jsstring_eqb_eq in E. injection E as E _. contradiction.
Qed.

Lemma starts_first_unit (c d : N) (p t : jsstring) :
  c <> d -> starts_with (c :: p) (d :: t) = false.
Proof.
  intros Hcd. cbn [starts_with]. destruct (N.eqb_spec c d); [contradiction|reflexivity].
Qed.

(** [X29] A file that was just uploaded is what the next analysis sends,
    whatever tab was open and whatever was typed before: an image as the
    image payload, an audio file, a video file or a PDF as the document
    payload with the file's own type, each with the data-URL prefix of the
    reader's result removed. *)
Theorem upload_then_process (file : File) (st : State) :
  (starts_with (js "image/") (file_type file) = true ->
   snd (run_net (handleProcess engine fetch
                   (handleFileUpload toLowerCase reader (Some file) st)))
   = [GeminiService.gateway_request
        (image_payload (GeminiService.strip_data_url (reader file AsDataURL)))])
  /\ (starts_with (js "audio/") (file_type file) = true
      \/ starts_with (js "video/") (file_type file) = true
      \/ file_type file = js "application/pdf" ->
      snd (run_net (handleProcess engine fetch
                      (handleFileUpload toLowerCase reader (Some file) st)))
      = [GeminiService.gateway_request
           (document_payload (GeminiService.strip_data_url (reader file AsDataURL))
              (file_type file))]).
Proof.
  change (js "image/") with [105; 109; 97; 103; 101; 47]%N.
  change (js "audio/") with [97; 117; 100; 105; 111; 47]%N.
  change (js "video/") with [118; 105; 100; 101; 111; 47]%N.
  split.
  - intros Hi.
    destruct (first_unit _ _ _ Hi) as [t' Et].
    assert (Hn : JsString.eqb (file_type file) (js "text/plain") = false).
    { rewrite Et. change (js "text/plain") with (116 :: js "ext/plain")%N.
      now apply eqb_first_unit. }
    unfold handleFileUpload, read_mode, onload. rewrite Hn.
    change (js "image/") with [105; 109; 97; 103; 101; 47]%N. rewrite Hi.
    rewrite (handleProcess_sends _
               (image_payload (GeminiService.strip_data_url (reader file AsDataURL))));
      [reflexivity|].
    unfold analyse. cbn [activeTab setActiveTab fileData setFileData type base64].
    change (js "image/") with [105; 109; 97; 103; 101; 47]%N. now rewrite Hi.
  - intros [Ha | [Hv | Hp]].
    + destruct (first_unit _ _ _ Ha) as [t' Et].
      assert (Hn : JsString.eqb (file_type file) (js "text/plain") = false).
      { rewrite Et. change (js "text/plain") with (116 :: js "ext/plain")%N.
        now apply eqb_first_unit. }
      assert (Hi : starts_with [105; 109; 97; 103; 101; 47]%N (file_type file) = false).
      { rewrite Et. now apply starts_first_unit. }
      unfold handleFileUpload, read_mode, onload. rewrite Hn.
      change (js "image/") with [105; 109; 97; 103; 101; 47]%N.
      change (js "audio/") with [97; 117; 100; 105; 111; 47]%N.
      rewrite Hi, Ha.
      rewrite (handleProcess_sends _
                 (document_payload (GeminiService.strip_data_url (reader file AsDataURL))
                    (file_type file)));
        [reflexivity|].
      unfold analyse. cbn [activeTab setActiveTab fileData setFileData type base64].
      change (js "audio/") with [97; 117; 100; 105; 111; 47]%N. now rewrite Ha.
    + destruct (first_unit _ _ _ Hv) as [t' Et].
      assert (Hn : JsString.eqb (file_type file) (js "text/plain") = false).
      { rewrite Et. change (js "text/plain") with (116 :: js "ext/plain")%N.
        now apply eqb_first_unit. }
      assert (Hi : starts_with [105; 109; 97; 103; 101; 47]%N (file_type file) = false).
      { rewrite Et. now apply starts_first_unit. }
      assert (Ha : starts_with [97; 117; 100; 105; 111; 47]%N (file_type file) = false).
      { rewrite Et. now apply starts_first_unit. }
      unfold handleFileUpload, read_mode, onload. rewrite Hn.
      change (js "image/") with [105; 109; 97; 103; 101; 47]%N.
      change (js "audio/") with [97; 117; 100; 105; 111; 47]%N.
      change (js "video/") with [118; 105; 100; 101; 111; 47]%N.
      rewrite Hi, Ha, Hv.
      rewrite (handleProcess_sends _
                 (document_payload (GeminiService.strip_data_url (reader file AsDataURL))
                    (file_type file)));
        [reflexivity|].
      unfold analyse.
      cbn [activeTab videoMode setActiveTab setVideoMode fileData setFileData type base64].
      change (js "video/") with [118; 105; 100; 101; 111; 47]%N. now rewrite Hv.
    + unfold handleFileUpload, read_mode, onload. rewrite Hp.
      change (JsString.eqb (js "application/pdf") (js "text/plain")) with false.
      change (starts_with (js "image/") (js "application/pdf")) with false.
      change (starts_with (js "audio/") (js "application/pdf")) with false.
      change (starts_with (js "video/") (js "application/pdf")) with false.
      change (JsString.eqb (js "application/pdf") (js "application/pdf")) with true.
      cbn [orb].
      rewrite (handleProcess_sends _
                 (document_payload (GeminiService.strip_data_url (reader file AsDataURL))
                    (js "application/pdf")));
        [reflexivity|].
      unfold analyse. cbn [activeTab setActiveTab fileData setFileData type base64].
      change (JsString.eqb (js "application/pdf") (js "application/pdf")) with true.
      reflexivity.
Qed.

(** [X30] A file that is taken for a PDF by its name only (the name ends
    in [.pdf] once lowered, the type is not [application/pdf]) switches to
    the text tab when uploaded but is not analysed: with nothing typed the
    next analysis is refused with the text-tab message and nothing is
    sent. *)
Theorem pdf_by_name_is_not_analysed (file : File) (st : State) :
  file_type file <> js "text/plain" ->
  file_type file <> js "application/pdf" ->
  starts_with (js "image/") (file_type file) = false ->
  starts_with (js "audio/") (file_type file) = false ->
  starts_with (js "video/") (file_type file) = false ->
  ends_with (js ".pdf") (toLowerCase (file_name file)) = true ->
  textInput st = [] ->
  activeTab (handleFileUpload toLowerCase reader (Some file) st) = TEXT
  /\ run_net (handleProcess engine fetch
                (handleFileUpload toLowerCase reader (Some file) st))
     = (Return (refused no_text_message
                  (handleFileUpload toLowerCase reader (Some file) st)), []).
Proof.
  intros Hnt Hnp Hi Ha Hv He Hin.
  assert (Et : JsString.eqb (file_type file) (js "text/plain") = false).
  { destruct (JsString.eqb (file_type file) (js "text/plain")) eqn:E; [|reflexivity].
    apply jsstring_eqb_eq in E. contradiction. }
  assert (Ep : JsString.eqb (file_type file) (js "application/pdf") = false).
  { destruct (JsString.eqb (file_type file) (js "application/pdf")) eqn:E; [|reflexivity].
    apply jsstring_eqb_eq in E. contradiction. }
  assert (Eu : handleFileUpload toLowerCase reader (Some file) st
               = setActiveTab TEXT
                   (setFileData (Some {| name := file_name file; type := file_type file;
                                         base64 := reader file AsDataURL;
                                         rawText := None |}) st)).
  { unfold handleFileUpload, read_mode, onload. rewrite Et, Hi, Ha, Hv, Ep, He.
    reflexivity. }
  rewrite Eu. split; [reflexivity|].
  apply handleProcess_refuses; [|discriminate].
  unfold analyse, analyse_text, text_content.
  cbn [activeTab setActiveTab fileData setFileData type textInput rawText].
  rewrite Ep, Hin. reflexivity.
Qed.

End Facts.

End AppFacts.

(** * Concrete runs of the further theorems *)

Lemma other_methods_not_allowed_witness :
  run_net (Gateway.handler sample_engine sample_env (always ok_with_answer)
             {| Gateway.method := Some (js "PUT"); Gateway.body := JObject [] |})
  = (Return (Gateway.method_not_allowed_response (js "PUT")), []).
Proof.
  apply (GatewayMore.other_methods_not_allowed sample_engine sample_env
           (always ok_with_answer) (js "PUT") (JObject [])).
  - intros H. vm_compute in H. discriminate.
  - intros H. vm_compute in H. discriminate.
Defined.

Lemma upstream_429_is_rate_limit_witness :
  run_net (Gateway.handler sample_engine sample_env (always too_many_requests) post_hi)
  = (Return (Gateway.rate_limit_response JNull),
     [request_for sample_engine sample_env (Gateway.body post_hi) None]).
Proof.
  apply (GatewayMore.upstream_429_is_rate_limit sample_engine sample_env
           (always too_many_requests) post_hi None too_many_requests JNull);
    reflexivity.
Defined.

Lemma upstream_error_mirrored_witness :
  run_net (Gateway.handler sample_engine sample_env (always unavailable) post_hi)
  = (Return (Gateway.upstream_error_response 503 (JString (js "down")) unavailable_data),
     [request_for sample_engine sample_env (Gateway.body post_hi) None]).
Proof.
  apply (GatewayMore.upstream_error_mirrored sample_engine sample_env
           (always unavailable) post_hi None unavailable unavailable_data);
    try reflexivity.
  discriminate.
Defined.

Lemma upstream_error_null_body_witness :
  run_net (Gateway.handler sample_engine sample_env (always unavailable_null) post_hi)
  = (Return (Gateway.internal_error_response
               (TypeError sample_engine (ReadOfNullish JNull (js "error")))),
     [request_for sample_engine sample_env (Gateway.body post_hi) None]).
Proof.
  apply (GatewayMore.upstream_error_null_body sample_engine sample_env
           (always unavailable_null) post_hi None unavailable_null);
    try reflexivity.
  discriminate.
Defined.

Lemma unreadable_answer_is_internal_error_witness :
  run_net (Gateway.handler sample_engine sample_env
             (fun _ => Throw connection_refused) post_hi)
  = (Return (Gateway.internal_error_response connection_refused),
     [request_for sample_engine sample_env (Gateway.body post_hi) None]).
Proof.
  apply (GatewayMore.unreadable_answer_is_internal_error sample_engine sample_env
           (fun _ => Throw connection_refused) post_hi None connection_refused);
    try reflexivity.
  left. reflexivity.
Defined.

Lemma proxy_only_in_development_witness :
  init_agent (request_for sample_engine production_with_proxy (Gateway.body post_hi) None)
  = None.
Proof.
  apply (GatewayMore.proxy_only_in_development sample_engine production_with_proxy
           (always ok_with_answer) post_hi).
  - left. intros H. vm_compute in H. discriminate.
  - vm_compute. left. reflexivity.
Defined.

Lemma proxy_in_development_witness :
  snd (run_net (Gateway.handler sample_engine development_env (always ok_with_answer)
                  post_hi))
  = [request_for sample_engine development_env (Gateway.body post_hi)
       (Some (HttpsProxyAgent (js "http://127.0.0.1:7890")))].
Proof.
  apply (GatewayMore.proxy_in_development sample_engine development_env
           (always ok_with_answer) post_hi (js "http://127.0.0.1:7890"));
    try reflexivity.
  intros H. vm_compute in H. discriminate.
Defined.

Lemma credential_in_query_witness :
  url (request_for sample_engine keyless_env (Gateway.body post_hi) None)
  = Gateway.API_URL ++ js "?key=undefined".
Proof.
  apply (GatewayMore.credential_in_query sample_engine keyless_env
           (always ok_with_answer) post_hi).
  vm_compute. left. reflexivity.
Defined.


Lemma other_error_normalized_witness :
  fst (run_net (GeminiService.requestBackend sample_engine (always bad_request)
                  text_payload))
  = Return (failed_result (JString invalid_request_message) invalid_request_message).
Proof.
  generalize (ServiceMore.other_error_normalized sample_engine (always bad_request)
              text_payload bad_request
              (Gateway.res_json Gateway.invalid_request_response)
              invalid_request_message).
  vm_compute. intros W. apply W; try reflexivity; try (intros H; discriminate H).
Defined.

Lemma failure_becomes_result_witness :
  fst (run_net (GeminiService.requestBackend sample_engine
                  (fun _ => Throw connection_refused) text_payload))
  = Return (failed_result (JString (js "connect ECONNREFUSED"))
              (js "connect ECONNREFUSED")).
Proof.
  generalize (ServiceMore.failure_becomes_result sample_engine
              (fun _ => Throw connection_refused) text_payload connection_refused).
  vm_compute. intros W. apply W. left. reflexivity.
Defined.


Lemma fences_unwrapped_witness :
  replace_fences (js "```json" ++ bare_json_text ++ js "```") = bare_json_text.
Proof.
  generalize (ServiceMore.fences_unwrapped bare_json_text).
  vm_compute. intros W. apply W. intuition discriminate.
Defined.

Lemma unparsable_text_is_plain_witness :
  fst (run_net (GeminiService.requestBackend sample_engine
                  (always (success_with (js "{not json"))) text_payload))
  = Return (plain_text_result (js "{not json")).
Proof.
  generalize (ServiceFacts.unparsable_text_is_plain sample_engine
              (always (success_with (js "{not json"))) text_payload
              (success_with (js "{not json")) (candidates_body (js "{not json"))
              (js "{not json")).
  vm_compute. intros W. apply W; try reflexivity. right. reflexivity.
Defined.

Lemma parsed_text_is_structured_witness :
  fst (run_net (GeminiService.requestBackend sample_engine
                  (always (success_with (jsq "{'summary':'','keyPoints':['a']}")))
                  text_payload))
  = Return {| summary := JString (js "分析完成");
              keyPoints := JArray [JString (js "a")];
              conclusion := JString [];
              detailedAnalysis := JString (jsq "{'summary':'','keyPoints':['a']}") |}.
Proof.
  generalize (ServiceFacts.parsed_text_is_structured sample_engine
              (always (success_with (jsq "{'summary':'','keyPoints':['a']}"))) text_payload
              (success_with (jsq "{'summary':'','keyPoints':['a']}"))
              (candidates_body (jsq "{'summary':'','keyPoints':['a']}"))
              (jsq "{'summary':'','keyPoints':['a']}")
              [(js "summary", JString []); (js "keyPoints", JArray [JString (js "a")])]).
  vm_compute. intros W. apply W; try reflexivity; try (intros H; discriminate H).
Defined.

Lemma rejected_payload_through_gateway_witness :
  fst (run_net (GeminiService.analyzeText sample_engine
                  (via_gateway sample_engine sample_env (always ok_with_answer)) []))
  = Return (failed_result (JString invalid_request_message) invalid_request_message).
Proof.
  generalize (Together.rejected_payload_through_gateway sample_engine sample_env
              (always ok_with_answer) (JObject [(js "text", JString [])])).
  vm_compute. intros W. apply W; try reflexivity; try (intros H; discriminate H).
Defined.

Lemma rate_limit_through_gateway_witness :
  fst (run_net (GeminiService.requestBackend sample_engine
                  (via_gateway sample_engine sample_env (always too_many_requests))
                  text_payload))
  = Return (quota_result
              (JString (js "Google Gemini API 调用额度已超限，请稍后重试或检查配额设置。"))).
Proof.
  generalize (Together.rate_limit_through_gateway sample_engine sample_env
              (always too_many_requests) text_payload None too_many_requests JNull).
  vm_compute. intros W. apply W; try reflexivity; try (intros H; discriminate H).
Defined.

Lemma failure_through_gateway_witness :
  fst (run_net (GeminiService.requestBackend sample_engine
                  (via_gateway sample_engine sample_env (fun _ => Throw connection_refused))
                  text_payload))
  = Return (failed_result (JString (js "connect ECONNREFUSED"))
              (js "connect ECONNREFUSED")).
Proof.
  generalize (Together.failure_through_gateway sample_engine sample_env
              (fun _ => Throw connection_refused) text_payload None connection_refused).
  vm_compute. intros W. apply W; try reflexivity. left. reflexivity.
Defined.



Lemma text_tab_precedence_witness :
  snd (run_net (App.handleProcess sample_engine (always ok_with_answer) pdf_and_text))
  = [GeminiService.gateway_request (document_payload (js "JVBE") (js "application/pdf"))].
Proof.
  generalize (AppFacts.text_tab_precedence sample_engine (always ok_with_answer)
              pdf_and_text).
  vm_compute. intros W. destruct (W eq_refl) as [W1 _].
  apply (W1 _ eq_refl eq_refl).
Defined.

Lemma pdf_by_name_is_not_analysed_witness :
  App.activeTab (App.handleFileUpload ascii_lower fixed_reader (Some untyped_pdf) initial)
  = App.TEXT
  /\ run_net (App.handleProcess sample_engine (always ok_with_answer)
                (App.handleFileUpload ascii_lower fixed_reader (Some untyped_pdf) initial))
     = (Return (refused App.no_text_message
                  (App.handleFileUpload ascii_lower fixed_reader (Some untyped_pdf)
                     initial)), []).
Proof.
  generalize (AppFacts.pdf_by_name_is_not_analysed sample_engine (always ok_with_answer)
              ascii_lower fixed_reader untyped_pdf initial).
  vm_compute. intros W. apply W; try reflexivity; try (intros H; discriminate H).
Defined.

Lemma url_tabs_witness :
  run_net (App.handleProcess sample_engine (always ok_with_answer)
             (App.setActiveTab App.WEB initial))
  = (Return (refused App.no_web_url_message (App.setActiveTab App.WEB initial)), []).
Proof.
  generalize (AppFacts.url_tabs sample_engine (always ok_with_answer)
                (App.setActiveTab App.WEB initial)).
  vm_compute. intros W. destruct W as [W _]. destruct (W eq_refl) as [W1 _].
  apply W1. reflexivity.
Defined.

Lemma upload_then_process_witness :
  snd (run_net (App.handleProcess sample_engine (always ok_with_answer)
                  (App.handleFileUpload ascii_lower fixed_reader
                     (Some {| App.file_name := js "a.png"; App.file_type := js "image/png" |})
                     pdf_and_text)))
  = [GeminiService.gateway_request (image_payload (js "AAAA"))].
Proof.
  generalize (AppFacts.upload_then_process sample_engine (always ok_with_answer)
                ascii_lower fixed_reader
                {| App.file_name := js "a.png"; App.file_type := js "image/png" |}
                pdf_and_text).
  vm_compute. intros W. destruct W as [W _]. apply W. reflexivity.
Defined.
